(** * Layout key binding, signing and key generation scripts

    Shallow embedding of [scripts/update-layout-keys.py],
    [scripts/sign-layout.py] and [scripts/generate-intoto-key.py].

    JSON values are modelled as an inductive type; Python dicts loaded by
    [json.load] are association lists (first match wins on lookup, and an
    assignment replaces an existing key in place or appends a new one, as
    Python's dict does).  The cryptographic primitives, the byte-level file
    format and the validation code of the in-toto / securesystemslib
    libraries are fields of a [Backend] record, so every theorem holds for
    any implementation of them. *)

From Stdlib Require Import String Ascii List Bool ZArith Lia.
Import ListNotations.
Open Scope string_scope.
Set Warnings "-register-all".

(** ** JSON values and Python dict operations *)

Inductive json : Type :=
| JNull
| JBool (b : bool)
| JNum (n : Z)
| JStr (s : string)
| JArr (l : list json)
| JObj (kvs : list (string * json)).

(** [d.get(k)] on a dict: the first binding of [k]. *)
Fixpoint dget (kvs : list (string * json)) (k : string) : option json :=
  match kvs with
  | [] => None
  | (k', v) :: rest => if String.eqb k' k then Some v else dget rest k
  end.

(** [d[k] = v]: replaces the value in place when [k] is bound, otherwise
    appends the new binding at the end (insertion order). *)
Fixpoint dset (kvs : list (string * json)) (k : string) (v : json)
  : list (string * json) :=
  match kvs with
  | [] => [(k, v)]
  | (k', v') :: rest =>
      if String.eqb k' k then (k', v) :: rest else (k', v') :: dset rest k v
  end.

(** [k in d] for a dict. *)
Definition dhas (kvs : list (string * json)) (k : string) : bool :=
  match dget kvs k with Some _ => true | None => false end.

(** [d.get(k, default)]. *)
Definition dget_default (kvs : list (string * json)) (k : string) (dflt : json)
  : json :=
  match dget kvs k with Some v => v | None => dflt end.

(** Python truthiness of a JSON value ([if not x:]). *)
Definition py_truthy (v : json) : bool :=
  match v with
  | JNull => false
  | JBool b => b
  | JNum n => negb (Z.eqb n 0)
  | JStr s => negb (String.eqb s "")
  | JArr l => match l with [] => false | _ => true end
  | JObj kvs => match kvs with [] => false | _ => true end
  end.

(** The elements a Python [for x in v:] loop visits: list items, dict keys,
    the characters of a string; [None] models the [TypeError] raised for a
    value that is not iterable. *)
Definition py_iter (v : json) : option (list json) :=
  match v with
  | JArr l => Some l
  | JObj kvs => Some (map (fun kv => JStr (fst kv)) kvs)
  | JStr s => Some (map (fun c => JStr (String c EmptyString)) (list_ascii_of_string s))
  | _ => None
  end.

(** All-or-nothing map: the first [None] aborts, as an exception in a
    Python loop does. *)
Fixpoint map_option {A B : Type} (f : A -> option B) (l : list A)
  : option (list B) :=
  match l with
  | [] => Some []
  | x :: xs =>
      match f x with
      | None => None
      | Some y => match map_option f xs with
                  | None => None
                  | Some ys => Some (y :: ys)
                  end
      end
  end.

(** ** Paths ([pathlib.Path]) *)

(** A path is its string form, already normalised by [Path(...)]. *)
Definition path := string.

(** Split a path at its last ['/']: the parent part (with the slash) and
    the final component [Path.name]. *)
Fixpoint split_last_slash_rev (rev_chars : list ascii) (acc : list ascii)
  : list ascii * list ascii :=
  match rev_chars with
  | [] => ([], acc)
  | c :: rest =>
      if Ascii.eqb c "/"%char then (rev (c :: rest), acc)
      else split_last_slash_rev rest (c :: acc)
  end.

Definition path_parent_and_name (p : path) : string * string :=
  let '(par, nm) := split_last_slash_rev (rev (list_ascii_of_string p)) [] in
  (string_of_list_ascii par, string_of_list_ascii nm).

(** Index of the last ['.'] in a list of characters ([str.rfind]). *)
Fixpoint rfind_dot_aux (cs : list ascii) (i : nat) (found : option nat)
  : option nat :=
  match cs with
  | [] => found
  | c :: rest =>
      rfind_dot_aux rest (S i) (if Ascii.eqb c "."%char then Some i else found)
  end.

Definition rfind_dot (s : string) : option nat :=
  rfind_dot_aux (list_ascii_of_string s) 0 None.

(** [PurePath.suffix]:
    [i = name.rfind('.'); if 0 < i < len(name) - 1: return name[i:] else: return '']. *)
Definition name_suffix (name : string) : string :=
  match rfind_dot name with
  | Some i =>
      if (0 <? i)%nat && (i <? String.length name - 1)%nat
      then substring i (String.length name - i) name
      else ""
  | None => ""
  end.

(** [PurePath.with_suffix(suffix)]: [None] is the [ValueError] raised for
    a path with an empty name, which is the case of [.] ([Path('.').name]
    is [''], the one normalised path whose last component is not its name)
    and of a path ending in ['/'] (the root). *)
Definition with_suffix (p : path) (suffix : string) : option path :=
  let '(par, name) := path_parent_and_name p in
  if String.eqb name "" || String.eqb p "." then None
  else
    let old := name_suffix name in
    let stem := if String.eqb old "" then name
                else substring 0 (String.length name - String.length old) name in
    Some (par ++ stem ++ suffix).

(** ** Library behaviour the scripts rely on *)

(** The environment of the scripts: file contents, the PEM and JSON codecs,
    the key and signature primitives of [cryptography] /
    [securesystemslib], and the validation done by in-toto's model
    classes. *)
Record Backend : Type := {
  (** bytes stored in a file *)
  File : Type;
  (** a loaded private key *)
  PrivKey : Type;
  (** [json.load] / [json.dump] *)
  json_load : File -> option json;
  json_dump : json -> File;
  (** [Metablock.dump]: [json.dumps(..., indent=1, sort_keys=True)] *)
  metablock_repr : json -> File;
  (** [load_pem_private_key(pem, password=None)]; [None] is any failure *)
  load_pem_private_key : File -> option PrivKey;
  (** [private_key.private_bytes(PEM, TraditionalOpenSSL, NoEncryption())] *)
  private_bytes : PrivKey -> File;
  (** [public_key.public_bytes(PEM, SubjectPublicKeyInfo)] *)
  public_bytes : PrivKey -> File;
  (** the same PEM public key as a [str] (the ["public"] key value) *)
  public_pem : PrivKey -> string;
  (** key type and default scheme chosen by [SSlibKey.from_crypto] from the
      class of the public key (["rsa"], ["rsassa-pss-sha256"] for RSA) *)
  keytype_scheme_of_public : string -> string * string;
  (** [securesystemslib.formats.encode_canonical] *)
  encode_canonical : json -> string;
  (** [hashlib.sha256(...).hexdigest()] *)
  sha256_hex : string -> string;
  (** the signature value computed by [CryptoSigner.sign] *)
  sign_message : PrivKey -> string -> string;
  (** in-toto's [validate()] of a [Step], an [Inspection], a [Layout] and
      a [Metablock]; [false] is the exception it raises *)
  validate_step : json -> bool;
  validate_inspection : json -> bool;
  validate_layout : json -> bool;
  validate_metablock : list json -> json -> bool;
  (** [Layout.set_relative_expiration(months=1)]: an ISO-8601 timestamp one
      month after the current time *)
  relative_expiration : string
}.

Arguments File {_}.
Arguments PrivKey {_}.

Section Scripts.

Variable B : Backend.

(** A directory tree: the contents of each existing file. *)
Definition FS : Type := path -> option (@File B).

Definition fs_write (fs : FS) (p : path) (c : @File B) : FS :=
  fun q => if String.eqb q p then Some c else fs q.

(** ** securesystemslib keys *)

(** [SSlibKey.to_dict()] of the public key with PEM [pem]. *)
Definition public_key_dict (pem : string) : json :=
  let '(keytype, scheme) := keytype_scheme_of_public B pem in
  JObj [("keytype", JStr keytype); ("scheme", JStr scheme);
        ("keyval", JObj [("public", JStr pem)])].

(** [SSlibKey.keyid]: sha256 of the canonical JSON of the key dict. *)
Definition keyid_of_public (pem : string) : string :=
  sha256_hex B (encode_canonical B (public_key_dict pem)).

(** ** scripts/update-layout-keys.py *)

(** Lines 36-53: load the private key next to the public key path, build a
    [CryptoSigner] and read its public key's keyid and dict;
    [pub_key = {'keyid': keyid, **pub_key_dict}].  [None]: [sys.exit(1)]. *)
Definition load_key_for_binding (fs : FS) (private_key_path : path)
  : option (string * json) :=
  match fs private_key_path with
  | None => None
  | Some private_pem =>
      match load_pem_private_key B private_pem with
      | None => None
      | Some private_key =>
          let pem := public_pem B private_key in
          let keyid := keyid_of_public pem in
          let pub_key :=
            match public_key_dict pem with
            | JObj kvs =>
                JObj (fold_left (fun d kv => dset d (fst kv) (snd kv)) kvs
                        [("keyid", JStr keyid)])
            | other => other
            end in
          Some (keyid, pub_key)
      end
  end.

(** [step['pubkeys'] = [keyid]]; a step that is not a dict raises. *)
Definition set_pubkeys (keyid : string) (step : json) : option json :=
  match step with
  | JObj kvs => Some (JObj (dset kvs "pubkeys" (JArr [JStr keyid])))
  | _ => None
  end.

(** [for step in steps: step['pubkeys'] = [keyid]], updating the steps
    value in place. *)
Definition bind_steps (keyid : string) (steps : json) : option json :=
  match steps with
  | JArr l =>
      match map_option (set_pubkeys keyid) l with
      | Some l' => Some (JArr l')
      | None => None
      end
  | other =>
      match py_iter other with
      | Some [] => Some other
      | _ => None
      end
  end.

(** Lines 74-78:
    [layout['keys'] = {keyid: pub_key}]
    [for step in layout.get('steps', []): step['pubkeys'] = [keyid]] *)
Definition bind_layout (keyid : string) (pub_key : json) (layout : json)
  : option json :=
  match layout with
  | JObj kvs =>
      let kvs1 := dset kvs "keys" (JObj [(keyid, pub_key)]) in
      match dget kvs1 "steps" with
      | None => Some (JObj kvs1)
      | Some steps =>
          match bind_steps keyid steps with
          | Some steps' => Some (JObj (dset kvs1 "steps" steps'))
          | None => None
          end
      end
  | _ => None
  end.

(** [update_layout_keys(layout_path, public_key_path)]: [Some c] when the
    layout file is overwritten with [c], [None] when the script exits with
    an error before writing. *)
Definition update_layout_keys (fs : FS) (layout_path public_key_path : path)
  : option (@File B) :=
  match with_suffix public_key_path "" with
  | None => None
  | Some private_key_path =>
      match load_key_for_binding fs private_key_path with
      | None => None
      | Some (keyid, pub_key) =>
          match fs layout_path with
          | None => None
          | Some text =>
              match json_load B text with
              | None => None
              | Some layout =>
                  match bind_layout keyid pub_key layout with
                  | None => None
                  | Some layout' => Some (json_dump B layout')
                  end
              end
          end
      end
  end.

(** The directory tree after running the key-binding script.  The write of
    lines 81-86 is taken to succeed: a failing [open(layout_path, 'w')] or
    [json.dump] (which would leave a truncated file and exit 1) is not
    modelled, so the theorems about this function speak of runs whose
    write succeeds. *)
Definition run_update_layout_keys (fs : FS) (layout_path public_key_path : path)
  : option FS :=
  match update_layout_keys fs layout_path public_key_path with
  | Some c => Some (fs_write fs layout_path c)
  | None => None
  end.

(** ** in-toto model classes used by scripts/sign-layout.py *)

(** [Step( **kwargs)] ([in_toto.models.layout]): [SupplyChainItem.__init__]
    reads [name], [expected_materials], [expected_products]; [Step.__init__]
    sets [_type = "step"] and reads [pubkeys], [expected_command],
    [threshold]; other keyword arguments are ignored.  The attrs fields are
    what the metablock serialises. *)
Definition step_of_kwargs (kw : list (string * json)) : json :=
  JObj [("_type", JStr "step");
        ("name", dget_default kw "name" JNull);
        ("expected_materials", dget_default kw "expected_materials" (JArr []));
        ("expected_products", dget_default kw "expected_products" (JArr []));
        ("pubkeys", dget_default kw "pubkeys" (JArr []));
        ("expected_command", dget_default kw "expected_command" (JArr []));
        ("threshold", dget_default kw "threshold" (JNum 1))].

(** [Inspection( **kwargs)]: [_type = "inspection"] and [run]. *)
Definition inspection_of_kwargs (kw : list (string * json)) : json :=
  JObj [("_type", JStr "inspection");
        ("name", dget_default kw "name" JNull);
        ("expected_materials", dget_default kw "expected_materials" (JArr []));
        ("expected_products", dget_default kw "expected_products" (JArr []));
        ("run", dget_default kw "run" (JArr []))].

(** [Step( **d)]: [**] on a value that is not a dict raises [TypeError]. *)
Definition Step (d : json) : option json :=
  match d with
  | JObj kw => let s := step_of_kwargs kw in
               if validate_step B s then Some s else None
  | _ => None
  end.

Definition Inspection (d : json) : option json :=
  match d with
  | JObj kw => let s := inspection_of_kwargs kw in
               if validate_inspection B s then Some s else None
  | _ => None
  end.

(** [Layout( **kwargs)]: [_type = "layout"], [steps], [inspect], [keys],
    [readme]; [expires = kwargs.get("expires")], replaced by
    [set_relative_expiration(months=1)] when falsy; then [validate()]. *)
Definition layout_of_kwargs (kw : list (string * json)) : json :=
  let expires :=
    match dget kw "expires" with
    | Some v => if py_truthy v then v else JStr (relative_expiration B)
    | None => JStr (relative_expiration B)
    end in
  JObj [("_type", JStr "layout");
        ("steps", dget_default kw "steps" (JArr []));
        ("inspect", dget_default kw "inspect" (JArr []));
        ("keys", dget_default kw "keys" (JObj []));
        ("expires", expires);
        ("readme", dget_default kw "readme" (JStr ""))].

Definition Layout (kw : list (string * json)) : option json :=
  let l := layout_of_kwargs kw in
  if validate_layout B l then Some l else None.

(** A metablock: its signature list and its signed payload. *)
Definition Metablock : Type := (list json * json)%type.

(** [Metablock(signatures=..., signed=...)] with its [validate()];
    a signature list that is not a list fails there (or at [append]). *)
Definition make_metablock (signatures : json) (signed : json) : option Metablock :=
  match signatures with
  | JArr sigs => if validate_metablock B sigs signed then Some (sigs, signed) else None
  | _ => None
  end.

(** [Metablock.read(layout_dict)] (line 71): in-toto's [Metablock] class
    has no attribute [read] (it reads a document with [Metablock.load]
    from a path or [Metablock.from_dict] from a dict), so evaluating
    [Metablock.read] raises [AttributeError], whatever the document; the
    [except Exception] of lines 101-105 turns it into [sys.exit(1)]. *)
Definition metablock_read (kvs : list (string * json)) : option Metablock := None.

(** The default expiration written by the script for an unsigned layout. *)
Definition default_expires : string := "2030-12-31T23:59:59Z".

(** Lines 73-100: the unsigned-layout branch. *)
Definition unsigned_metablock (kvs : list (string * json)) : option Metablock :=
  match py_iter (dget_default kvs "steps" (JArr [])),
        py_iter (dget_default kvs "inspect" (JArr [])) with
  | Some steps_data, Some inspect_data =>
      match map_option Step steps_data, map_option Inspection inspect_data with
      | Some steps, Some inspections =>
          match Layout [("steps", JArr steps); ("inspect", JArr inspections);
                        ("keys", dget_default kvs "keys" (JObj []));
                        ("expires", dget_default kvs "expires" (JStr default_expires))] with
          | Some (JObj lkvs) =>
              let layout_obj :=
                match dget kvs "_type" with
                | Some t => JObj (dset lkvs "_type" t)
                | None => JObj lkvs
                end in
              make_metablock (JArr []) layout_obj
          | _ => None
          end
      | _, _ => None
      end
  | _, _ => None
  end.

(** Lines 67-105: [if 'signed' in layout_dict and 'signatures' in layout_dict]
    call [Metablock.read], else build a metablock from an unsigned layout.  For a JSON
    value that is not an object both branches raise (the [in] test or
    [.get]), caught by [except Exception]. *)
Definition build_metablock (layout_dict : json) : option Metablock :=
  match layout_dict with
  | JObj kvs =>
      if dhas kvs "signed" && dhas kvs "signatures"
      then metablock_read kvs
      else unsigned_metablock kvs
  | _ => None
  end.

(** [signer.sign(signed.signable_bytes).to_dict()] for a [CryptoSigner]. *)
Definition signature_dict (k : @PrivKey B) (signed : json) : json :=
  JObj [("keyid", JStr (keyid_of_public (public_pem B k)));
        ("sig", JStr (sign_message B k (encode_canonical B signed)))].

(** [metablock.create_signature(signer)]: [self.signatures.append(sig)]. *)
Definition create_signature (k : @PrivKey B) (mb : Metablock) : Metablock :=
  let '(sigs, signed) := mb in ((sigs ++ [signature_dict k signed])%list, signed).

(** The JSON document [Metablock.dump] writes. *)
Definition metablock_json (mb : Metablock) : json :=
  let '(sigs, signed) := mb in
  JObj [("signatures", JArr sigs); ("signed", signed)].

(** The document produced from a loaded layout JSON and a private key. *)
Definition sign_doc (layout_dict : json) (k : @PrivKey B) : option json :=
  match build_metablock layout_dict with
  | Some mb => Some (metablock_json (create_signature k mb))
  | None => None
  end.

(** [sign_layout(layout_path, key_path, output_path)]: [Some (p, c)] when
    file [p] is written with [c], [None] for [sys.exit(1)].  The write of
    lines 126-131 is taken to succeed. *)
Definition sign_layout (fs : FS) (layout_path key_path : path)
  (output_path : option path) : option (path * @File B) :=
  let out := match output_path with Some o => o | None => layout_path end in
  match fs layout_path with
  | None => None
  | Some text =>
      match json_load B text with
      | None => None
      | Some layout_dict =>
          match build_metablock layout_dict with
          | None => None
          | Some mb =>
              match fs key_path with
              | None => None
              | Some pem =>
                  match load_pem_private_key B pem with
                  | None => None
                  | Some k =>
                      Some (out, metablock_repr B (metablock_json (create_signature k mb)))
                  end
              end
          end
      end
  end.

End Scripts.

(** ** scripts/generate-intoto-key.py *)

Section KeyGen.

Variable B : Backend.

(** A directory tree with permission bits: contents and mode of each
    existing file. *)
Definition KFS : Type := path -> option (@File B * Z).

Definition kfs_set (fs : KFS) (p : path) (e : @File B * Z) : KFS :=
  fun q => if String.eqb q p then Some e else fs q.

(** [Path.unlink(missing_ok=True)]. *)
Definition unlink (fs : KFS) (p : path) : KFS :=
  fun q => if String.eqb q p then None else fs q.

(** How one [Path.write_bytes] call ends: success, an error before the
    file is opened, or an error after it was created with partial
    contents. *)
Inductive write_outcome : Type :=
| WriteOk
| WriteFailNoFile
| WriteFailPartial (partial : @File B).

(** The outcome of each file operation of one run, and the mode a newly
    created file gets from the umask. *)
Record IOPlan : Type := {
  w_private : write_outcome;
  chmod_private_ok : bool;
  w_public : write_outcome;
  chmod_public_ok : bool;
  new_file_mode : Z
}.

(** [Path.write_bytes(data)]: opens with ['wb'] (truncating an existing
    file, keeping its mode) and writes; the boolean is [false] when it
    raises. *)
Definition write_bytes (fs : KFS) (p : path) (data : @File B) (o : write_outcome)
  (create_mode : Z) : KFS * bool :=
  let mode := match fs p with Some (_, m) => m | None => create_mode end in
  match o with
  | WriteOk => (kfs_set fs p (data, mode), true)
  | WriteFailNoFile => (fs, false)
  | WriteFailPartial partial => (kfs_set fs p (partial, mode), false)
  end.

(** [Path.chmod(mode)]. *)
Definition chmod (fs : KFS) (p : path) (mode : Z) (ok : bool) : KFS * bool :=
  match fs p with
  | Some (c, _) => if ok then (kfs_set fs p (c, mode), true) else (fs, false)
  | None => (fs, false)
  end.

Definition file_exists (fs : KFS) (p : path) : bool :=
  match fs p with Some _ => true | None => false end.

(** 0o600 and 0o644. *)
Definition mode_private : Z := 384.
Definition mode_public : Z := 420.

(** [generate_key_pair(private_key_path, public_key_path, key_size)]:
    [generated] is the result of [rsa.generate_private_key] ([None] when it
    raises).  Returns the final tree and whether the run succeeded
    ([false]: [sys.exit(1)]). *)
Definition generate_key_pair (fs : KFS) (private_key_path public_key_path : path)
  (generated : option (@PrivKey B)) (io : IOPlan) : KFS * bool :=
  if file_exists fs private_key_path || file_exists fs public_key_path
  then (fs, false)
  else
    match generated with
    | None => (fs, false)
    | Some private_key =>
        let pem_private := private_bytes B private_key in
        let pem_public := public_bytes B private_key in
        let cleanup (fs' : KFS) :=
          (unlink (unlink fs' private_key_path) public_key_path, false) in
        let '(fs1, ok1) := write_bytes fs private_key_path pem_private
                             (w_private io) (new_file_mode io) in
        if negb ok1 then cleanup fs1 else
        let '(fs2, ok2) := chmod fs1 private_key_path mode_private (chmod_private_ok io) in
        if negb ok2 then cleanup fs2 else
        let '(fs3, ok3) := write_bytes fs2 public_key_path pem_public
                             (w_public io) (new_file_mode io) in
        if negb ok3 then cleanup fs3 else
        let '(fs4, ok4) := chmod fs3 public_key_path mode_public (chmod_public_ok io) in
        if negb ok4 then cleanup fs4 else (fs4, true)
    end.

(** [main()], lines 112-115: [public_key_path = args.key.with_suffix('.pub')]
    ([with_suffix] raising for an empty name ends the run). *)
Definition keygen_paths (key : path) : option (path * path) :=
  match with_suffix key ".pub" with
  | Some pub => Some (key, pub)
  | None => None
  end.

Definition keygen_main (fs : KFS) (key : path) (generated : option (@PrivKey B))
  (io : IOPlan) : KFS * bool :=
  match keygen_paths key with
  | Some (private_key_path, public_key_path) =>
      generate_key_pair fs private_key_path public_key_path generated io
  | None => (fs, false)
  end.

End KeyGen.

(** The file contents of a directory tree with permission bits, as the
    other scripts read them. *)
Definition fs_of_kfs (B : Backend) (kfs : KFS B) : FS B :=
  fun p => option_map fst (kfs p).

(** ** app.py (Flask test application)

    A request's query arguments are the decoded [(name, value)] pairs of
    the URL in order ([request.args], a werkzeug [MultiDict]); a response
    is its body and its header list (werkzeug [Headers], a list of pairs
    with case-insensitive names). *)

Definition dq : string := String (Ascii.ascii_of_nat 34) EmptyString.

(** [request.args.get(k, default)]: the first value of [k]. *)
Fixpoint args_get (args : list (string * string)) (k dflt : string) : string :=
  match args with
  | [] => dflt
  | (k', v) :: rest => if String.eqb k' k then v else args_get rest k dflt
  end.

Record response : Type := {
  body : string;
  headers : list (string * string)
}.

Definition lower_ascii (c : ascii) : ascii :=
  let n := Ascii.nat_of_ascii c in
  if (65 <=? n)%nat && (n <=? 90)%nat then Ascii.ascii_of_nat (n + 32) else c.

Fixpoint lower (s : string) : string :=
  match s with
  | EmptyString => EmptyString
  | String c rest => String (lower_ascii c) (lower rest)
  end.

(** Header names compare case-insensitively. *)
Definition header_eqb (a b : string) : bool := String.eqb (lower a) (lower b).

(** [Headers.set(key, value)] ([headers[key] = value]): the first header
    named [key] is replaced in place and the later ones are removed; with
    none, the header is appended. *)
Fixpoint headers_set (hs : list (string * string)) (k v : string)
  : list (string * string) :=
  match hs with
  | [] => [(k, v)]
  | (k', v') :: rest =>
      if header_eqb k' k
      then (k, v) :: filter (fun kv => negb (header_eqb (fst kv) k)) rest
      else (k', v') :: headers_set rest k v
  end.

Definition set_header (r : response) (k v : string) : response :=
  {| body := body r; headers := headers_set (headers r) k v |}.

(** The values of the headers named [k]. *)
Definition header_values (r : response) (k : string) : list string :=
  map snd (filter (fun kv => header_eqb (fst kv) k) (headers r)).

(** Decimal representation of a natural number ([str(n)]). *)
Fixpoint decimal_aux (fuel n : nat) (acc : string) : string :=
  match fuel with
  | O => acc
  | S f =>
      let acc' := String (Ascii.ascii_of_nat (48 + n mod 10)) acc in
      if (n <? 10)%nat then acc' else decimal_aux f (n / 10) acc'
  end.

Definition decimal (n : nat) : string := decimal_aux (S n) n "".

(** [make_response(body)] for a [str] body (also what Flask does with a
    [str] returned by a view): Flask's [Response] has mimetype
    [text/html], so werkzeug sets [Content-Type: text/html; charset=utf-8],
    then [set_data] sets [Content-Length] to the length of the UTF-8
    encoded body (the body string is taken as its bytes). *)
Definition make_response (b : string) : response :=
  {| body := b;
     headers := [("Content-Type", "text/html; charset=utf-8");
                 ("Content-Length", decimal (String.length b))] |}.

(** [add_headers] ([@app.after_request]): returns the response as is. *)
Definition add_headers (r : response) : response := r.

(** The literal parts of the f-strings of [hello] and [search], before
    and after [{query}]. *)
Definition hello_page_before : string :=
  "
    <html>
    <head>
        <title>Provenance Example - DAST Test App</title>
        <script src=" ++ dq ++ "https://code.jquery.com/jquery-1.8.0.min.js" ++ dq ++ "></script>
    </head>
    <body>
        <h1>Hello from signed container!</h1>
        <p>This app contains intentional vulnerabilities for DAST testing.</p>
        <div>Search query: ".

Definition hello_page_after : string :=
  "</div>
        <form action=" ++ dq ++ "/" ++ dq ++ " method=" ++ dq ++ "get" ++ dq ++ ">
            <input type=" ++ dq ++ "text" ++ dq ++ " name=" ++ dq ++ "q" ++ dq ++ " placeholder=" ++ dq ++ "Search..." ++ dq ++ ">
            <input type=" ++ dq ++ "submit" ++ dq ++ " value=" ++ dq ++ "Search" ++ dq ++ ">
        </form>
        <ul>
            <li><a href=" ++ dq ++ "/search?q=test" ++ dq ++ ">Search Page</a></li>
            <li><a href=" ++ dq ++ "/cors" ++ dq ++ ">CORS Endpoint</a></li>
            <li><a href=" ++ dq ++ "/vulnerable-js" ++ dq ++ ">JavaScript Page</a></li>
            <li><a href=" ++ dq ++ "/no-content-type" ++ dq ++ ">No Content-Type</a></li>
            <li><a href=" ++ dq ++ "/duplicate-cookies" ++ dq ++ ">Duplicate Cookies</a></li>
        </ul>
    </body>
    </html>
    ".

Definition search_page_before : string :=
  "
    <html>
    <body>
        <h1>Search Results</h1>
        <p>You searched for: ".

Definition search_page_after : string :=
  "</p>
        <p><a href=" ++ dq ++ "/" ++ dq ++ ">Back to home</a></p>
    </body>
    </html>
    ".

(** [hello()], route [/]. *)
Definition hello (args : list (string * string)) : response :=
  let query := args_get args "q" "" in
  let r := make_response (hello_page_before ++ query ++ hello_page_after) in
  let r := set_header r "Access-Control-Allow-Origin" "*" in
  set_header r "Access-Control-Allow-Credentials" "true".

(** [search()], route [/search]: returns the page as a [str]. *)
Definition search (args : list (string * string)) : string :=
  let query := args_get args "q" "" in
  search_page_before ++ query ++ search_page_after.

(** The responses sent for [/] and [/search]: the view's result made into
    a response, then the [after_request] hook. *)
Definition serve_hello (args : list (string * string)) : response :=
  add_headers (hello args).

Definition serve_search (args : list (string * string)) : response :=
  add_headers (make_response (search args)).

(** [needle] occurs in [hay]. *)
Definition is_infix (needle hay : string) : Prop :=
  exists pre post, hay = (pre ++ needle ++ post)%string.

(** ** A concrete backend, for evaluating the scripts on examples

    File contents are JSON values (a PEM file is a JSON string), a private
    key is a string, and the primitives are simple injective stand-ins;
    every in-toto validation accepts. *)
Definition toy_backend : Backend := {|
  File := json;
  PrivKey := string;
  json_load := fun f => Some f;
  json_dump := fun j => j;
  metablock_repr := fun j => j;
  load_pem_private_key := fun f => match f with JStr s => Some s | _ => None end;
  private_bytes := fun k => JStr k;
  public_bytes := fun k => JStr ("PUB:" ++ k);
  public_pem := fun k => "PUB:" ++ k;
  keytype_scheme_of_public := fun _ => ("rsa", "rsassa-pss-sha256");
  encode_canonical := fun j =>
    match j with
    | JObj [_; _; (_, JObj [(_, JStr pem)])] => pem
    | _ => "payload"
    end;
  sha256_hex := fun s => "id:" ++ s;
  sign_message := fun k m => "sig(" ++ k ++ "," ++ m ++ ")";
  validate_step := fun _ => true;
  validate_inspection := fun _ => true;
  validate_layout := fun _ => true;
  validate_metablock := fun _ _ => true;
  relative_expiration := "2026-11-15T00:00:00Z"
|}.

(** ** Observations on documents *)

(** [j[f]] for a JSON object. *)
Definition field (j : json) (f : string) : option json :=
  match j with JObj kvs => dget kvs f | _ => None end.

(** The metablock test of [sign_layout]. *)
Definition is_metablock (doc : json) : bool :=
  match doc with
  | JObj kvs => dhas kvs "signed" && dhas kvs "signatures"
  | _ => false
  end.

(** The signature list of a document. *)
Definition signatures_of (doc : json) : list json :=
  match field doc "signatures" with Some (JArr l) => l | _ => [] end.

(** The signed payload of a metablock. *)
Definition signed_of (doc : json) : json :=
  match field doc "signed" with Some s => s | None => JNull end.

(** The layout a document carries: the ["signed"] part of a metablock, the
    document itself otherwise. *)
Definition payload_of (doc : json) : json :=
  if is_metablock doc then signed_of doc else doc.

(** The step (or inspection) objects of the input layout, as the loops of
    the script visit them. *)
Definition input_items (doc : json) (f : string) : list json :=
  match payload_of doc with
  | JObj pk => match py_iter (dget_default pk f (JArr [])) with Some l => l | None => [] end
  | _ => []
  end.

(** The step (or inspection) objects of a signed document. *)
Definition output_items (out : json) (f : string) : list json :=
  match field (signed_of out) f with Some (JArr l) => l | _ => [] end.

Definition step_kwargs : list string :=
  ["name"; "expected_materials"; "expected_products"; "pubkeys";
   "expected_command"; "threshold"].

Definition inspection_kwargs : list string :=
  ["name"; "expected_materials"; "expected_products"; "run"].

(** Object [s] keeps every field of [model] present in object [d], and has
    no field outside [_type] and [model]. *)
Definition keeps_model_fields (model : list string) (d s : json) : Prop :=
  match d, s with
  | JObj kw, JObj skv =>
      forall f, (In f model -> dget kw f <> None -> dget skv f = dget kw f) /\
                (~ In f ("_type" :: model) -> dget skv f = None)
  | _, _ => False
  end.

(** The registry entry of [kid] in a document's ["keys"]. *)
Definition registry_entry (doc : json) (kid : string) : option json :=
  match field doc "keys" with Some ks => field ks kid | None => None end.

(** The field names of a JSON object, in order. *)
Definition field_names (j : json) : list string :=
  match j with JObj kvs => map fst kvs | _ => [] end.

(** Object [s] has [pubkeys = [kid]]. *)
Definition has_pubkeys (kid : string) (s : json) : Prop :=
  exists kw, s = JObj kw /\ dget kw "pubkeys" = Some (JArr [JStr kid]).

(** ** Example inputs *)

Definition example_layout : json :=
  JObj [("_type", JStr "layout"); ("expires", JStr "2030-01-01T00:00:00Z");
        ("steps", JArr [JObj [("name", JStr "build");
                              ("expected_command", JArr [JStr "make"])]]);
        ("inspect", JArr []); ("keys", JObj [])].

(** Private key [k], its public key [k.pub] and a layout. *)
Definition example_fs : FS toy_backend := fun p =>
  if String.eqb p "k" then Some (JStr "alice")
  else if String.eqb p "k.pub" then Some (JStr "PUB:alice")
  else if String.eqb p "layout.json" then Some example_layout
  else None.

(** The same directory with other contents in [k.pub]. *)
Definition example_fs_other_pub : FS toy_backend := fun p =>
  if String.eqb p "k.pub" then Some (JStr "PUB:mallory") else example_fs p.

(** The same directory without the private key. *)
Definition example_fs_public_only : FS toy_backend := fun p =>
  if String.eqb p "k" then None else example_fs p.

Definition layout_with_old_key : json :=
  JObj [("keys", JObj [("oldkeyid", JObj [("keyid", JStr "oldkeyid")])]);
        ("steps", JArr [JObj [("name", JStr "build")]])].

(** A layout in the flat shape of the spec's file format, with one
    signature next to the payload fields and no ["signed"] key. *)
Definition flat_signed_layout : json :=
  JObj [("_type", JStr "layout"); ("expires", JStr "2030-01-01T00:00:00Z");
        ("steps", JArr []); ("inspect", JArr []); ("keys", JObj []);
        ("signatures", JArr [JObj [("keyid", JStr "aa"); ("sig", JStr "bb")]])].

Definition layout_with_step_note : json :=
  JObj [("_type", JStr "layout"); ("expires", JStr "2030-01-01T00:00:00Z");
        ("steps", JArr [JObj [("name", JStr "build"); ("note", JStr "owner: ci")]]);
        ("inspect", JArr []); ("keys", JObj [])].

(** A partially signed metablock whose layout has no ["expires"]. *)
Definition metablock_without_expires : json :=
  JObj [("signed", JObj [("_type", JStr "layout"); ("steps", JArr []);
                         ("inspect", JArr []); ("keys", JObj [])]);
        ("signatures", JArr [])].

(** A metablock with one signature, in the shape [Metablock.dump] writes. *)
Definition partially_signed_metablock : json :=
  JObj [("signatures", JArr [JObj [("keyid", JStr "aa"); ("sig", JStr "bb")]]);
        ("signed", JObj [("_type", JStr "layout"); ("expires", JStr "2030-01-01T00:00:00Z");
                         ("steps", JArr []); ("inspect", JArr []); ("keys", JObj []);
                         ("readme", JStr "")])].

(** The example directory with signed documents next to it. *)
Definition example_fs_signed : FS toy_backend := fun p =>
  if String.eqb p "signed.json" then Some partially_signed_metablock
  else if String.eqb p "unexpiring.json" then Some metablock_without_expires
  else if String.eqb p "flat.json" then Some flat_signed_layout
  else example_fs p.


(** Every file operation succeeds. *)
Definition all_ok_plan (B : Backend) (m : Z) : IOPlan B :=
  {| w_private := WriteOk B; chmod_private_ok := true;
     w_public := WriteOk B; chmod_public_ok := true; new_file_mode := m |}.

Definition empty_kfs (B : Backend) : KFS B := fun _ => None.

(** ** Lemmas on dict operations *)

Ltac destruct_opt :=
  repeat match goal with
  | H : context [match ?x with _ => _ end] |- _ =>
      lazymatch x with
      | context [match _ with _ => _ end] => fail
      | _ => let E := fresh "E" in destruct x eqn:E
      end
  end;
  try discriminate.

Lemma dget_dset_same (kvs : list (string * json)) (k : string) (v : json) :
  dget (dset kvs k v) k = Some v.
Proof.
  induction kvs as [|[k' v'] rest IH]; simpl.
  - rewrite String.eqb_refl; reflexivity.
  - destruct (String.eqb_spec k' k) as [->|Hne]; simpl.
    + rewrite String.eqb_refl; reflexivity.
    + apply String.eqb_neq in Hne; rewrite Hne; exact IH.
Qed.

Lemma dget_dset_other (kvs : list (string * json)) (k k' : string) (v : json) :
  k' <> k -> dget (dset kvs k v) k' = dget kvs k'.
Proof.
  intros Hne; induction kvs as [|[k0 v0] rest IH]; simpl.
  - apply String.eqb_neq in Hne; rewrite String.eqb_sym, Hne; reflexivity.
  - destruct (String.eqb_spec k0 k) as [->|Hk]; simpl.
    + apply String.eqb_neq in Hne; rewrite String.eqb_sym, Hne; reflexivity.
    + destruct (String.eqb k0 k'); [reflexivity | exact IH].
Qed.

(** Assigning the value a key already has changes nothing. *)
Lemma dset_bound (kvs : list (string * json)) (k : string) (v : json) :
  dget kvs k = Some v -> dset kvs k v = kvs.
Proof.
  induction kvs as [|[k0 v0] rest IH]; simpl; [discriminate|].
  destruct (String.eqb_spec k0 k) as [->|Hk].
  - intros H; injection H as ->; reflexivity.
  - intros H; rewrite (IH H); reflexivity.
Qed.

Lemma dset_dset (kvs : list (string * json)) (k : string) (v : json) :
  dset (dset kvs k v) k v = dset kvs k v.
Proof. apply dset_bound, dget_dset_same. Qed.



Lemma map_option_Forall2 {A C : Type} (f : A -> option C) (l : list A) (l' : list C) :
  map_option f l = Some l' -> Forall2 (fun a c => f a = Some c) l l'.
Proof.
  revert l'; induction l as [|x xs IH]; simpl; intros l' H.
  - injection H as <-; constructor.
  - destruct (f x) eqn:Ex; [|discriminate].
    destruct (map_option f xs) eqn:Exs; [|discriminate].
    injection H as <-; constructor; [exact Ex | apply IH; reflexivity].
Qed.

(** ** Key binding (scripts/update-layout-keys.py) *)

Lemma set_pubkeys_idem (keyid : string) (s s' : json) :
  set_pubkeys keyid s = Some s' -> set_pubkeys keyid s' = Some s'.
Proof.
  destruct s; simpl; intros H; try discriminate.
  injection H as <-; simpl; rewrite dset_dset; reflexivity.
Qed.

Lemma map_set_pubkeys_idem (keyid : string) (l l' : list json) :
  map_option (set_pubkeys keyid) l = Some l' ->
  map_option (set_pubkeys keyid) l' = Some l'.
Proof.
  revert l'; induction l as [|x xs IH]; simpl; intros l' H.
  - injection H as <-; reflexivity.
  - destruct (set_pubkeys keyid x) as [y|] eqn:Ex; [|discriminate].
    destruct (map_option (set_pubkeys keyid) xs) as [ys|] eqn:Exs; [|discriminate].
    injection H as <-; simpl.
    rewrite (set_pubkeys_idem _ _ _ Ex), (IH ys eq_refl); reflexivity.
Qed.

Lemma bind_steps_idem (keyid : string) (st st' : json) :
  bind_steps keyid st = Some st' -> bind_steps keyid st' = Some st'.
Proof.
  destruct st as [| | | |l|kvs]; simpl; intros H;
    try (destruct_opt; injection H as <-; simpl; try rewrite E; reflexivity).
  destruct (map_option (set_pubkeys keyid) l) as [l'|] eqn:E; [|discriminate].
  injection H as <-; simpl; rewrite (map_set_pubkeys_idem _ _ _ E); reflexivity.
Qed.

(** The document transformation of lines 74-78 is idempotent. *)
Lemma bind_layout_idem (keyid : string) (pub_key layout layout' : json) :
  bind_layout keyid pub_key layout = Some layout' ->
  bind_layout keyid pub_key layout' = Some layout'.
Proof.
  destruct layout as [| | | | |kvs]; simpl; intros H; try discriminate.
  set (kvs1 := dset kvs "keys" (JObj [(keyid, pub_key)])) in *.
  destruct (dget kvs1 "steps") as [st|] eqn:Est.
  - destruct (bind_steps keyid st) as [st'|] eqn:Ebs; [|discriminate].
    injection H as <-; simpl.
    rewrite dset_bound
      by (rewrite dget_dset_other by discriminate; apply dget_dset_same).
    rewrite dget_dset_same, (bind_steps_idem _ _ _ Ebs), dset_dset; reflexivity.
  - injection H as <-; simpl.
    rewrite (dset_bound kvs1 "keys" _ (dget_dset_same _ _ _)), Est; reflexivity.
Qed.

Lemma load_key_for_binding_some (B : Backend) (fs : FS B) (p : path) (kid : string)
  (d : json) :
  load_key_for_binding B fs p = Some (kid, d) ->
  exists f k, fs p = Some f /\ load_pem_private_key B f = Some k /\
              kid = keyid_of_public B (public_pem B k).
Proof.
  unfold load_key_for_binding; intros H.
  destruct (fs p) as [f|]; [|discriminate].
  destruct (load_pem_private_key B f) as [k|] eqn:Ek; [|discriminate].
  injection H as <- _; exists f, k; auto.
Qed.

(** Everything [update_layout_keys] reads: the file at the public key path
    with its suffix removed, and the layout file. *)
Lemma update_layout_keys_frame (B : Backend) (fs1 fs2 : FS B) (lp kp : path) :
  (forall priv, with_suffix kp "" = Some priv -> fs1 priv = fs2 priv) ->
  fs1 lp = fs2 lp ->
  update_layout_keys B fs1 lp kp = update_layout_keys B fs2 lp kp.
Proof.
  intros Hpriv Hlp; unfold update_layout_keys.
  destruct (with_suffix kp "") as [priv|] eqn:Ew; [|reflexivity].
  unfold load_key_for_binding; rewrite (Hpriv priv eq_refl), Hlp; reflexivity.
Qed.

(** C1: the key id recorded by key binding is [keyid_of_public] of the PEM
    bytes of the public key, a function of those bytes alone (no private
    key and no later scheme choice is an argument of it): two key files
    loaded independently whose public keys have the same bytes give the
    same key id and the same key descriptor. *)
Theorem bind_keyid_pure_function_of_public_key (B : Backend) (fs1 fs2 : FS B)
  (p1 p2 : path) (f1 f2 : @File B) (k1 k2 : @PrivKey B) :
  fs1 p1 = Some f1 -> load_pem_private_key B f1 = Some k1 ->
  fs2 p2 = Some f2 -> load_pem_private_key B f2 = Some k2 ->
  public_pem B k1 = public_pem B k2 ->
  load_key_for_binding B fs1 p1 = load_key_for_binding B fs2 p2 /\
  option_map fst (load_key_for_binding B fs1 p1) =
    Some (keyid_of_public B (public_pem B k1)).
Proof.
  intros H1 L1 H2 L2 Hpub; unfold load_key_for_binding.
  rewrite H1, L1, H2, L2, Hpub; split; reflexivity.
Qed.

Lemma bind_keyid_pure_function_of_public_key_witness :
  example_fs "k" = Some (JStr "alice") /\
  load_key_for_binding toy_backend example_fs "k" =
    load_key_for_binding toy_backend example_fs "k" /\
  option_map fst (load_key_for_binding toy_backend example_fs "k") =
    Some (keyid_of_public toy_backend (public_pem toy_backend "alice")).
Proof.
  split; [reflexivity|].
  apply (bind_keyid_pure_function_of_public_key toy_backend example_fs example_fs
           "k" "k" (JStr "alice") (JStr "alice") "alice" "alice");
    reflexivity.
Defined.

(** C6 (counterexample): binding a key to a layout whose registry already
    holds [oldkeyid] removes that entry. *)
Lemma bind_keeps_other_keys_counterexample :
  registry_entry layout_with_old_key "oldkeyid" <> None /\
  option_map (fun out => registry_entry out "oldkeyid")
    (bind_layout "newkeyid" (JStr "descriptor") layout_with_old_key) = Some None.
Proof. split; [discriminate | reflexivity]. Qed.

(** C6 (amended): key binding replaces the whole ["keys"] registry by the
    one entry [{keyid: descriptor}], sets ["pubkeys"] to [[keyid]] on every
    step while keeping the step's other fields, and leaves every other
    top-level field unchanged. *)
Theorem bind_layout_replaces_registry (keyid : string) (pub_key : json)
  (kvs : list (string * json)) (out : json) :
  bind_layout keyid pub_key (JObj kvs) = Some out ->
  field out "keys" = Some (JObj [(keyid, pub_key)]) /\
  (forall f, f <> "keys" -> f <> "steps" -> field out f = dget kvs f) /\
  (forall l, dget kvs "steps" = Some (JArr l) ->
     exists l', field out "steps" = Some (JArr l') /\
       Forall2 (fun s s' => field s' "pubkeys" = Some (JArr [JStr keyid]) /\
                            forall g, g <> "pubkeys" -> field s' g = field s g) l l') /\
  (forall st, dget kvs "steps" = Some st -> (forall l, st <> JArr l) ->
     field out "steps" = Some st) /\
  (dget kvs "steps" = None -> field out "steps" = None).
Proof.
  simpl; intros H.
  set (kvs1 := dset kvs "keys" (JObj [(keyid, pub_key)])) in *.
  assert (Hk1 : forall f, f <> "keys" -> dget kvs1 f = dget kvs f)
    by (intros f Hf; apply dget_dset_other; exact Hf).
  destruct (dget kvs1 "steps") as [st|] eqn:Est.
  - destruct (bind_steps keyid st) as [st'|] eqn:Ebs; [|discriminate].
    injection H as <-; simpl.
    rewrite Hk1 in Est by discriminate.
    split; [rewrite dget_dset_other by discriminate; apply dget_dset_same|].
    split; [intros f Hf Hs; rewrite dget_dset_other by exact Hs; apply Hk1; exact Hf|].
    rewrite dget_dset_same; split; [|split].
    + intros l Hl; rewrite Hl in Est; injection Est as <-.
      simpl in Ebs; destruct (map_option (set_pubkeys keyid) l) as [l'|] eqn:Em;
        [|discriminate].
      injection Ebs as <-; exists l'; split; [reflexivity|].
      apply map_option_Forall2 in Em.
      refine (Forall2_impl _ _ Em); intros s s' Hs.
      destruct s; simpl in Hs; try discriminate; injection Hs as <-; simpl.
      split; [apply dget_dset_same|]; intros g Hg; apply dget_dset_other; exact Hg.
    + intros st0 Hst0 Hnot; rewrite Hst0 in Est; injection Est as ->.
      destruct st; simpl in Ebs; destruct_opt;
        try (injection Ebs as <-; reflexivity).
      exfalso; apply (Hnot l); reflexivity.
    + intros Hn; rewrite Hn in Est; discriminate.
  - injection H as <-; simpl.
    rewrite Hk1 in Est by discriminate.
    split; [apply dget_dset_same|].
    split; [intros f Hf _; apply Hk1; exact Hf|].
    split; [intros l Hl; rewrite Hl in Est; discriminate|].
    split; [intros st Hst; rewrite Hst in Est; discriminate|].
    intros _; rewrite Hk1 by discriminate; exact Est.
Qed.

Lemma bind_layout_replaces_registry_witness :
  bind_layout "newkeyid" (JStr "descriptor") layout_with_old_key =
    Some (JObj [("keys", JObj [("newkeyid", JStr "descriptor")]);
                ("steps", JArr [JObj [("name", JStr "build");
                                      ("pubkeys", JArr [JStr "newkeyid"])]])]) /\
  field (JObj [("keys", JObj [("newkeyid", JStr "descriptor")]);
               ("steps", JArr [JObj [("name", JStr "build");
                                     ("pubkeys", JArr [JStr "newkeyid"])]])]) "keys" =
    Some (JObj [("newkeyid", JStr "descriptor")]).
Proof.
  split; [reflexivity|].
  apply (bind_layout_replaces_registry "newkeyid" (JStr "descriptor")
           [("keys", JObj [("oldkeyid", JObj [("keyid", JStr "oldkeyid")])]);
            ("steps", JArr [JObj [("name", JStr "build")]])]).
  reflexivity.
Defined.

(** C7 (counterexample): with a valid layout and the public key file
    [k.pub] present but no private key file [k], key binding fails. *)
Lemma bind_needs_only_public_key_counterexample :
  example_fs_public_only "layout.json" = Some example_layout /\
  example_fs_public_only "k.pub" = Some (JStr "PUB:alice") /\
  update_layout_keys toy_backend example_fs_public_only "layout.json" "k.pub" = None.
Proof. repeat split. Qed.

(** C7 (amended): key binding reads the private key file at the public key
    path with its last suffix removed; it fails when that file is absent or
    does not load as a private key, and its result depends only on that
    file and the layout file (the public key file itself is never read). *)
Theorem update_layout_keys_reads_private_key (B : Backend) (fs1 fs2 : FS B)
  (lp kp priv : path) :
  with_suffix kp "" = Some priv ->
  (fs1 priv = None -> update_layout_keys B fs1 lp kp = None) /\
  (forall f, fs1 priv = Some f -> load_pem_private_key B f = None ->
     update_layout_keys B fs1 lp kp = None) /\
  (fs1 priv = fs2 priv -> fs1 lp = fs2 lp ->
     update_layout_keys B fs1 lp kp = update_layout_keys B fs2 lp kp).
Proof.
  intros Hw; split; [|split].
  - intros Hn; unfold update_layout_keys, load_key_for_binding.
    rewrite Hw, Hn; reflexivity.
  - intros f Hf Hl; unfold update_layout_keys, load_key_for_binding.
    rewrite Hw, Hf, Hl; reflexivity.
  - intros Hp Hl; apply update_layout_keys_frame; [|exact Hl].
    intros q Hq; rewrite Hw in Hq; injection Hq as <-; exact Hp.
Qed.

Lemma update_layout_keys_reads_private_key_witness :
  with_suffix "k.pub" "" = Some "k" /\
  (example_fs "k" = example_fs_other_pub "k" ->
   example_fs "layout.json" = example_fs_other_pub "layout.json" ->
   update_layout_keys toy_backend example_fs "layout.json" "k.pub" =
   update_layout_keys toy_backend example_fs_other_pub "layout.json" "k.pub").
Proof.
  split; [reflexivity|].
  apply (update_layout_keys_reads_private_key toy_backend example_fs
           example_fs_other_pub "layout.json" "k.pub" "k").
  reflexivity.
Defined.

(** C9: running key binding twice with the same key leaves the layout file
    exactly as one run does, given that [json.load] reads back what
    [json.dump] wrote and that the layout is not the private key file. *)
Theorem update_layout_keys_idempotent (B : Backend) (fs : FS B) (lp kp : path)
  (c : @File B) :
  (forall j, json_load B (json_dump B j) = Some j) ->
  with_suffix kp "" <> Some lp ->
  update_layout_keys B fs lp kp = Some c ->
  update_layout_keys B (fs_write B fs lp c) lp kp = Some c.
Proof.
  intros Hrt Hne H; unfold update_layout_keys in *.
  destruct (with_suffix kp "") as [priv|] eqn:Ew; [|discriminate].
  assert (Hpriv : fs_write B fs lp c priv = fs priv).
  { unfold fs_write; destruct (String.eqb_spec priv lp) as [->|]; [|reflexivity].
    exfalso; apply Hne; reflexivity. }
  assert (Hload : load_key_for_binding B (fs_write B fs lp c) priv =
                  load_key_for_binding B fs priv)
    by (unfold load_key_for_binding; rewrite Hpriv; reflexivity).
  rewrite Hload.
  destruct (load_key_for_binding B fs priv) as [[kid pk]|]; [|discriminate].
  destruct (fs lp) as [text|]; [|discriminate].
  destruct (json_load B text) as [layout|]; [|discriminate].
  destruct (bind_layout kid pk layout) as [layout'|] eqn:Eb; [|discriminate].
  injection H as <-.
  unfold fs_write; rewrite String.eqb_refl, Hrt, (bind_layout_idem _ _ _ _ Eb).
  reflexivity.
Qed.

Lemma update_layout_keys_idempotent_witness :
  update_layout_keys toy_backend
    (fs_write toy_backend example_fs "layout.json"
       (match update_layout_keys toy_backend example_fs "layout.json" "k.pub" with
        | Some c => c | None => JNull end))
    "layout.json" "k.pub" =
  update_layout_keys toy_backend example_fs "layout.json" "k.pub".
Proof.
  apply (update_layout_keys_idempotent toy_backend example_fs "layout.json" "k.pub").
  - intros j; reflexivity.
  - discriminate.
  - reflexivity.
Defined.

(** ** Signing (scripts/sign-layout.py) *)

Lemma sign_doc_some (B : Backend) (doc : json) (k : @PrivKey B) (out : json) :
  sign_doc B doc k = Some out ->
  exists sigs signed, build_metablock B doc = Some (sigs, signed) /\
    out = JObj [("signatures", JArr ((sigs ++ [signature_dict B k signed])%list));
                ("signed", signed)].
Proof.
  unfold sign_doc; destruct (build_metablock B doc) as [[sigs signed]|];
    [|discriminate].
  intros H; injection H as <-; exists sigs, signed; split; reflexivity.
Qed.

Lemma make_metablock_some (B : Backend) (sj signed : json) (sigs : list json)
  (s : json) :
  make_metablock B sj signed = Some (sigs, s) -> sj = JArr sigs /\ s = signed.
Proof.
  destruct sj; simpl; try discriminate.
  destruct (validate_metablock B l signed); [|discriminate].
  intros H; injection H as <- <-; split; reflexivity.
Qed.

(** A document with both ["signed"] and ["signatures"] never builds a
    metablock: [Metablock.read] raises. *)
Lemma build_metablock_metablock_none (B : Backend) (doc : json) :
  is_metablock doc = true -> build_metablock B doc = None.
Proof.
  destruct doc as [| | | | |kvs]; simpl; try discriminate.
  intros ->; reflexivity.
Qed.

(** A built metablock starts from no signature. *)
Lemma build_metablock_sigs_nil (B : Backend) (doc : json) (sigs : list json)
  (signed : json) :
  build_metablock B doc = Some (sigs, signed) -> sigs = [].
Proof.
  destruct doc as [| | | | |kvs]; simpl; try discriminate.
  destruct (dhas kvs "signed" && dhas kvs "signatures").
  - intros H; unfold metablock_read in H; discriminate.
  - unfold unsigned_metablock; intros H; destruct_opt;
      apply make_metablock_some in H; destruct H as [H _];
      injection H as <-; reflexivity.
Qed.

Lemma metablock_json_observations (sigs : list json) (signed : json) :
  is_metablock (JObj [("signatures", JArr sigs); ("signed", signed)]) = true /\
  signatures_of (JObj [("signatures", JArr sigs); ("signed", signed)]) = sigs /\
  signed_of (JObj [("signatures", JArr sigs); ("signed", signed)]) = signed.
Proof. repeat split. Qed.

(** A signed document is a metablock holding the new signature only. *)
Lemma sign_doc_signatures (B : Backend) (doc : json) (k : @PrivKey B) (out : json) :
  sign_doc B doc k = Some out ->
  is_metablock out = true /\
  signatures_of out = [signature_dict B k (signed_of out)].
Proof.
  intros H; destruct (sign_doc_some _ _ _ _ H) as (sigs & signed & Hb & ->).
  rewrite (build_metablock_sigs_nil _ _ _ _ Hb); split; reflexivity.
Qed.

(** A successful run of the signing script: the layout file loads, the
    document builds, the key loads, and [Metablock.dump] of the signed
    document is written to the output path (the layout path by default). *)
Lemma sign_layout_outcome (B : Backend) (fs : FS B) (lp kp : path) (op : option path)
  (p : path) (c : @File B) :
  sign_layout B fs lp kp op = Some (p, c) ->
  exists text doc pem k out,
    fs lp = Some text /\ json_load B text = Some doc /\
    fs kp = Some pem /\ load_pem_private_key B pem = Some k /\
    sign_doc B doc k = Some out /\
    p = match op with Some o => o | None => lp end /\ c = metablock_repr B out.
Proof.
  unfold sign_layout.
  destruct (fs lp) as [text|] eqn:E1; [|discriminate].
  destruct (json_load B text) as [doc|] eqn:E2; [|discriminate].
  destruct (build_metablock B doc) as [mb|] eqn:E3; [|discriminate].
  destruct (fs kp) as [pem|] eqn:E4; [|discriminate].
  destruct (load_pem_private_key B pem) as [k|] eqn:E5; [|discriminate].
  intros H; injection H as <- <-.
  exists text, doc, pem, k, (metablock_json (create_signature B k mb)).
  do 4 (split; [first [reflexivity | assumption]|]).
  split; [unfold sign_doc; rewrite E3; reflexivity|].
  split; reflexivity.
Qed.

(** C2 (code bug): the signing script never carries a signature of its
    input over.  A document with both ["signed"] and ["signatures"] (a
    partially signed metablock) makes it exit with an error, since
    [Metablock.read] does not exist; any other document is signed as an
    unsigned layout, and the written document holds the new signature
    only. *)
Theorem sign_layout_drops_input_signatures (B : Backend) (fs : FS B) (lp kp : path)
  (op : option path) (text : @File B) (doc : json) :
  fs lp = Some text -> json_load B text = Some doc ->
  (is_metablock doc = true -> sign_layout B fs lp kp op = None) /\
  (forall p c, sign_layout B fs lp kp op = Some (p, c) ->
     exists k out, c = metablock_repr B out /\
       signatures_of out = [signature_dict B k (signed_of out)]).
Proof.
  intros H1 H2; split.
  - intros Hm; unfold sign_layout; rewrite H1, H2, (build_metablock_metablock_none B doc Hm).
    reflexivity.
  - intros p c H.
    destruct (sign_layout_outcome _ _ _ _ _ _ _ H)
      as (text' & doc' & pem & k & out & _ & _ & _ & _ & Hs & _ & ->).
    exists k, out; split; [reflexivity|].
    exact (proj2 (sign_doc_signatures _ _ _ _ Hs)).
Qed.

Lemma sign_layout_drops_input_signatures_witness :
  signatures_of partially_signed_metablock <> [] /\
  sign_layout toy_backend example_fs_signed "signed.json" "k" None = None /\
  signatures_of flat_signed_layout <> [] /\
  exists c, sign_layout toy_backend example_fs_signed "flat.json" "k" None = Some ("flat.json", c) /\
    exists k out, c = metablock_repr toy_backend out /\
      signatures_of out = [signature_dict toy_backend k (signed_of out)].
Proof.
  split; [discriminate|].
  split.
  - refine (proj1 (sign_layout_drops_input_signatures toy_backend example_fs_signed
                     "signed.json" "k" None partially_signed_metablock
                     partially_signed_metablock _ _) _); reflexivity.
  - split; [discriminate|].
    eexists; split; [reflexivity|].
    refine (proj2 (sign_layout_drops_input_signatures toy_backend example_fs_signed
                     "flat.json" "k" None flat_signed_layout flat_signed_layout _ _)
                  "flat.json" _ _); reflexivity.
Defined.

(** C4 (code bug): a successful signing run writes a document with exactly
    one signature, and running the script again on that document (with
    any key, to any output) fails: the document is a metablock and
    [Metablock.read] does not exist, so no second signature is ever
    appended.  Assumed: loading what [Metablock.dump] wrote gives a value
    with the same [signed] / [signatures] fields present. *)
Theorem sign_layout_twice_fails (B : Backend) (fs : FS B) (lp kp : path)
  (op : option path) (p : path) (c : @File B) (kp2 : path) (op2 : option path) :
  (forall j j', json_load B (metablock_repr B j) = Some j' -> is_metablock j' = is_metablock j) ->
  sign_layout B fs lp kp op = Some (p, c) ->
  (exists k out, c = metablock_repr B out /\
     signatures_of out = [signature_dict B k (signed_of out)]) /\
  sign_layout B (fs_write B fs p c) p kp2 op2 = None.
Proof.
  intros Hrt H.
  destruct (sign_layout_outcome _ _ _ _ _ _ _ H)
    as (text & doc & pem & k & out & _ & _ & _ & _ & Hs & _ & ->).
  destruct (sign_doc_signatures _ _ _ _ Hs) as [Hm Hsigs].
  split; [exists k, out; split; [reflexivity | exact Hsigs]|].
  unfold sign_layout, fs_write; rewrite String.eqb_refl.
  destruct (json_load B (metablock_repr B out)) as [j'|] eqn:Ej; [|reflexivity].
  rewrite (build_metablock_metablock_none B j'); [reflexivity|].
  rewrite (Hrt _ _ Ej); exact Hm.
Qed.

Lemma sign_layout_twice_fails_witness :
  exists c, sign_layout toy_backend example_fs "layout.json" "k" None = Some ("layout.json", c) /\
    sign_layout toy_backend (fs_write toy_backend example_fs "layout.json" c)
      "layout.json" "k" None = None.
Proof.
  eexists; split; [reflexivity|].
  refine (proj2 (sign_layout_twice_fails toy_backend example_fs "layout.json" "k" None
                   "layout.json" _ "k" None _ _)).
  - intros j j' H; simpl in H; injection H as <-; reflexivity.
  - reflexivity.
Defined.

Ltac split_field_eqb f :=
  repeat match goal with
  | |- context [String.eqb ?a f] => destruct (String.eqb_spec a f)
  end.

Lemma Step_keeps_model_fields (B : Backend) (d s : json) :
  Step B d = Some s -> keeps_model_fields step_kwargs d s.
Proof.
  destruct d as [| | | | |kw]; simpl; try discriminate.
  destruct (validate_step B (step_of_kwargs kw)); [|discriminate].
  intros H; injection H as <-; intros f; split.
  - intros Hin Hnone; simpl in Hin;
      destruct Hin as [<-|[<-|[<-|[<-|[<-|[<-|[]]]]]]];
      simpl; unfold dget_default;
      (destruct (dget kw _); [reflexivity | contradiction]).
  - intros Hnot; cbn [step_of_kwargs dget]; split_field_eqb f; subst;
      try reflexivity; exfalso; apply Hnot; simpl; tauto.
Qed.

Lemma Inspection_keeps_model_fields (B : Backend) (d s : json) :
  Inspection B d = Some s -> keeps_model_fields inspection_kwargs d s.
Proof.
  destruct d as [| | | | |kw]; simpl; try discriminate.
  destruct (validate_inspection B (inspection_of_kwargs kw)); [|discriminate].
  intros H; injection H as <-; intros f; split.
  - intros Hin Hnone; simpl in Hin;
      destruct Hin as [<-|[<-|[<-|[<-|[]]]]];
      simpl; unfold dget_default;
      (destruct (dget kw _); [reflexivity | contradiction]).
  - intros Hnot; cbn [inspection_of_kwargs dget]; split_field_eqb f; subst;
      try reflexivity; exfalso; apply Hnot; simpl; tauto.
Qed.

Lemma Step_type (B : Backend) (d s : json) :
  Step B d = Some s -> field s "_type" = Some (JStr "step").
Proof.
  destruct d as [| | | | |kw]; simpl; try discriminate.
  destruct (validate_step B (step_of_kwargs kw)); [|discriminate].
  intros H; injection H as <-; reflexivity.
Qed.

Lemma Inspection_type (B : Backend) (d s : json) :
  Inspection B d = Some s -> field s "_type" = Some (JStr "inspection").
Proof.
  destruct d as [| | | | |kw]; simpl; try discriminate.
  destruct (validate_inspection B (inspection_of_kwargs kw)); [|discriminate].
  intros H; injection H as <-; reflexivity.
Qed.

Lemma build_metablock_items (B : Backend) (doc : json) (sigs : list json) (signed : json) :
  build_metablock B doc = Some (sigs, signed) ->
  exists steps insp,
    map_option (Step B) (input_items doc "steps") = Some steps /\
    map_option (Inspection B) (input_items doc "inspect") = Some insp /\
    field signed "steps" = Some (JArr steps) /\
    field signed "inspect" = Some (JArr insp).
Proof.
  intros Hb; pose proof (build_metablock_metablock_none B doc) as Hn.
  destruct doc as [| | | | |kvs]; try discriminate.
  destruct (is_metablock (JObj kvs)) eqn:Em;
    [rewrite (Hn eq_refl) in Hb; discriminate|].
  unfold input_items, payload_of; rewrite Em.
  unfold build_metablock in Hb; simpl in Em; rewrite Em in Hb.
  unfold unsigned_metablock in Hb.
  destruct (py_iter (dget_default kvs "steps" (JArr []))) as [sdata|] eqn:Ep;
    [|discriminate].
  destruct (py_iter (dget_default kvs "inspect" (JArr []))) as [idata|] eqn:Ei;
    [|discriminate].
  destruct (map_option (Step B) sdata) as [steps|] eqn:Es; [|discriminate].
  destruct (map_option (Inspection B) idata) as [insp|] eqn:Eins; [|discriminate].
  unfold Layout in Hb.
  destruct (validate_layout B _); [|discriminate].
  simpl in Hb.
  destruct (dget kvs "_type") as [t|];
    (destruct (validate_metablock B _ _); [|discriminate]);
    injection Hb as <- <-; exists steps, insp; repeat split.
Qed.

(** C3 (counterexample): a step field outside in-toto's [Step] model is not
    in the signed document. *)
Lemma sign_roundtrips_unknown_fields_counterexample :
  map (fun d => field d "note") (input_items layout_with_step_note "steps") =
    [Some (JStr "owner: ci")] /\
  option_map (fun out => map (fun s => field s "note") (output_items out "steps"))
    (sign_doc toy_backend layout_with_step_note "alice") = Some [None].
Proof. split; reflexivity. Qed.

(** C3 (amended): signing rebuilds every step and inspection of the layout
    through in-toto's [Step] / [Inspection] model: each field of that model
    present in the input object keeps its value in the signed document,
    [_type] is ["step"] / ["inspection"], and no other field is kept. *)
Theorem sign_keeps_model_fields (B : Backend) (doc : json) (k : @PrivKey B)
  (out : json) :
  sign_doc B doc k = Some out ->
  Forall2 (fun d s => keeps_model_fields step_kwargs d s /\
                      field s "_type" = Some (JStr "step"))
    (input_items doc "steps") (output_items out "steps") /\
  Forall2 (fun d s => keeps_model_fields inspection_kwargs d s /\
                      field s "_type" = Some (JStr "inspection"))
    (input_items doc "inspect") (output_items out "inspect").
Proof.
  intros H; destruct (sign_doc_some _ _ _ _ H) as (sigs & signed & Hb & ->).
  destruct (build_metablock_items _ _ _ _ Hb)
    as (steps & insp & Hs & Hi & Hfs & Hfi).
  unfold output_items;
    rewrite (proj2 (proj2 (metablock_json_observations _ signed))), Hfs, Hfi.
  split.
  - apply map_option_Forall2 in Hs.
    refine (Forall2_impl _ _ Hs); intros d s Hd;
      split; [apply (Step_keeps_model_fields B d s Hd) | apply (Step_type B d s Hd)].
  - apply map_option_Forall2 in Hi.
    refine (Forall2_impl _ _ Hi); intros d s Hd;
      split; [apply (Inspection_keeps_model_fields B d s Hd)
             | apply (Inspection_type B d s Hd)].
Qed.

Lemma sign_keeps_model_fields_witness :
  exists out, sign_doc toy_backend layout_with_step_note "alice" = Some out /\
    Forall2 (fun d s => keeps_model_fields step_kwargs d s /\
                        field s "_type" = Some (JStr "step"))
      (input_items layout_with_step_note "steps") (output_items out "steps") /\
    Forall2 (fun d s => keeps_model_fields inspection_kwargs d s /\
                        field s "_type" = Some (JStr "inspection"))
      (input_items layout_with_step_note "inspect") (output_items out "inspect").
Proof.
  eexists; split; [reflexivity|].
  apply (sign_keeps_model_fields toy_backend layout_with_step_note "alice");
    reflexivity.
Defined.




(** ** Key generation (scripts/generate-intoto-key.py) *)

(** With two different target paths, a run either creates both files with
    the key's PEM encodings and modes 0600 / 0644, or leaves both paths as
    they were; no other path is touched. *)
Lemma generate_key_pair_outcome (B : Backend) (fs : KFS B)
  (priv pub : path) (gen : option (@PrivKey B)) (io : IOPlan B) :
  priv <> pub ->
  let '(fs', ok) := generate_key_pair B fs priv pub gen io in
  (forall q, q <> priv -> q <> pub -> fs' q = fs q) /\
  ((ok = true /\ exists k, gen = Some k /\
      fs' priv = Some (private_bytes B k, mode_private) /\
      fs' pub = Some (public_bytes B k, mode_public)) \/
   (ok = false /\ fs' priv = fs priv /\ fs' pub = fs pub)).
Proof.
  intros Hne.
  assert (H1 : String.eqb priv pub = false) by (apply String.eqb_neq; exact Hne).
  assert (H2 : String.eqb pub priv = false)
    by (apply String.eqb_neq; intros E; apply Hne; symmetry; exact E).
  unfold generate_key_pair, file_exists.
  destruct (fs priv) as [ep|] eqn:Ep.
  { simpl; split; [reflexivity | right; auto]. }
  destruct (fs pub) as [eq|] eqn:Eq.
  { simpl; split; [reflexivity | right; auto]. }
  simpl.
  destruct gen as [k|]; [|split; [reflexivity | right; auto]].
  destruct io as [w1 c1 w2 c2 m].
  destruct w1 as [| |p1]; destruct c1; destruct w2 as [| |p2]; destruct c2;
    unfold write_bytes, chmod, kfs_set, unlink; simpl;
    do 8 (rewrite ?Ep, ?Eq, ?String.eqb_refl, ?H1, ?H2; simpl);
    (split;
     [intros q Hq1 Hq2;
      apply String.eqb_neq in Hq1; apply String.eqb_neq in Hq2;
      rewrite ?Hq1, ?Hq2; reflexivity
     |first [left; split; [reflexivity | exists k; auto]
            | right; auto]]).
Qed.

(** C8: the public key path is the base name with its last suffix replaced
    by [.pub] ([Path.with_suffix]), not the base name with [.pub] appended:
    for [-k key.pem] the files are [key.pem] and [key.pub], and [key.pub] is
    not [key.pem.pub]. *)
Theorem keygen_public_path_replaces_suffix :
  keygen_paths "key.pem" = Some ("key.pem", "key.pub")%string /\
  "key.pub"%string <> ("key.pem" ++ ".pub")%string.
Proof. split; [reflexivity | discriminate]. Qed.

(** C5: for [-k owner.pub] both target paths are [owner.pub]; the
    existence check passes, the public key overwrites the private key in the
    same file, and the run succeeds.  Afterwards the only file is
    [owner.pub], holding the public key with mode 0644: no file holds the
    private key with mode 0600, so the run is neither "both files with
    their permissions" nor "no file". *)
Theorem keygen_same_path_overwrites_private_key (B : Backend) (k : @PrivKey B) (m : Z) :
  keygen_paths "owner.pub" = Some ("owner.pub", "owner.pub")%string /\
  let '(fs', ok) := keygen_main B (empty_kfs B) "owner.pub" (Some k) (all_ok_plan B m) in
  ok = true /\
  fs' "owner.pub"%string = Some (public_bytes B k, mode_public) /\
  (forall q, q <> "owner.pub"%string -> fs' q = None) /\
  (forall q, fs' q <> Some (private_bytes B k, mode_private)).
Proof.
  split; [reflexivity|].
  unfold keygen_main, keygen_paths, generate_key_pair, file_exists,
    write_bytes, chmod, kfs_set, empty_kfs, all_ok_plan; simpl.
  split; [reflexivity|]. split; [reflexivity|]. split.
  - intros q Hq. apply String.eqb_neq in Hq. rewrite Hq. reflexivity.
  - intros q. destruct (String.eqb q "owner.pub") eqn:E.
    + unfold mode_public, mode_private. intros H. injection H. discriminate.
    + discriminate.
Qed.

(** ** Extra: paths *)

Lemma list_ascii_of_string_app (a b : string) :
  list_ascii_of_string (a ++ b) = (list_ascii_of_string a ++ list_ascii_of_string b)%list.
Proof. induction a as [|c a IH]; simpl; [reflexivity | rewrite IH; reflexivity]. Qed.

Lemma string_of_list_ascii_app (a b : list ascii) :
  string_of_list_ascii (a ++ b) = (string_of_list_ascii a ++ string_of_list_ascii b)%string.
Proof. induction a as [|c a IH]; simpl; [reflexivity | rewrite IH; reflexivity]. Qed.

Lemma split_last_slash_rev_acc (r acc t : list ascii) :
  split_last_slash_rev r (acc ++ t) =
    (fst (split_last_slash_rev r acc), (snd (split_last_slash_rev r acc) ++ t)%list).
Proof.
  revert acc; induction r as [|c r IH]; intros acc; simpl; [reflexivity|].
  destruct (Ascii.eqb c "/"%char); [reflexivity|].
  apply (IH (c :: acc)).
Qed.

Lemma split_last_slash_rev_noslash (r1 r acc : list ascii) :
  ~ In "/"%char r1 ->
  split_last_slash_rev (r1 ++ r) acc = split_last_slash_rev r (rev r1 ++ acc).
Proof.
  revert acc; induction r1 as [|c r1 IH]; intros acc Hn; simpl; [reflexivity|].
  destruct (Ascii.eqb_spec c "/"%char) as [->|Hc]; [exfalso; apply Hn; left; reflexivity|].
  rewrite IH by (intros H; apply Hn; right; exact H).
  rewrite <- app_assoc; reflexivity.
Qed.

(** Appending a slash-free string to a path extends its final component. *)
Lemma path_parent_and_name_app (q s : path) :
  ~ In "/"%char (list_ascii_of_string s) ->
  path_parent_and_name (q ++ s) =
    (fst (path_parent_and_name q), (snd (path_parent_and_name q) ++ s)%string).
Proof.
  intros Hs; unfold path_parent_and_name.
  rewrite list_ascii_of_string_app, rev_app_distr.
  rewrite split_last_slash_rev_noslash by (rewrite <- in_rev; exact Hs).
  rewrite rev_involutive, app_nil_r.
  change (list_ascii_of_string s) with ([] ++ list_ascii_of_string s)%list.
  rewrite split_last_slash_rev_acc.
  destruct (split_last_slash_rev (rev (list_ascii_of_string q)) []) as [par nm].
  simpl; rewrite string_of_list_ascii_app, string_of_list_ascii_of_string; reflexivity.
Qed.

Lemma split_last_slash_rev_recombine (r acc : list ascii) :
  (fst (split_last_slash_rev r acc) ++ snd (split_last_slash_rev r acc))%list =
    (rev r ++ acc)%list.
Proof.
  revert acc; induction r as [|c r IH]; intros acc; simpl; [reflexivity|].
  destruct (Ascii.eqb c "/"%char); simpl; [reflexivity|].
  rewrite IH, <- app_assoc; reflexivity.
Qed.

Lemma path_parent_and_name_recombine (q : path) :
  (fst (path_parent_and_name q) ++ snd (path_parent_and_name q))%string = q.
Proof.
  unfold path_parent_and_name.
  pose proof (split_last_slash_rev_recombine (rev (list_ascii_of_string q)) []) as H.
  destruct (split_last_slash_rev (rev (list_ascii_of_string q)) []) as [par nm].
  simpl in *; rewrite <- string_of_list_ascii_app, H, rev_involutive, app_nil_r.
  apply string_of_list_ascii_of_string.
Qed.

Lemma rfind_dot_aux_app (l1 l2 : list ascii) (i : nat) (f : option nat) :
  rfind_dot_aux (l1 ++ l2) i f = rfind_dot_aux l2 (i + length l1) (rfind_dot_aux l1 i f).
Proof.
  revert i f; induction l1 as [|c l1 IH]; intros i f; simpl.
  - rewrite Nat.add_0_r; reflexivity.
  - rewrite IH, Nat.add_succ_r; reflexivity.
Qed.

Lemma string_length_app (a b : string) :
  String.length (a ++ b) = String.length a + String.length b.
Proof. induction a as [|c a IH]; simpl; [reflexivity | rewrite IH; reflexivity]. Qed.

Lemma length_list_ascii_of_string (a : string) :
  length (list_ascii_of_string a) = String.length a.
Proof. induction a as [|c a IH]; simpl; [reflexivity | rewrite IH; reflexivity]. Qed.

Lemma substring_app_left (a b : string) :
  substring 0 (String.length a) (a ++ b) = a.
Proof. induction a as [|c a IH]; simpl; [destruct b; reflexivity | rewrite IH; reflexivity]. Qed.

Lemma substring_app_right (a b : string) :
  substring (String.length a) (String.length b) (a ++ b) = b.
Proof.
  induction a as [|c a IH]; simpl; [|exact IH].
  induction b as [|c b IH]; simpl; [reflexivity | rewrite IH; reflexivity].
Qed.

Lemma name_suffix_nodot (nm : string) :
  rfind_dot nm = None -> name_suffix nm = "".
Proof. unfold name_suffix; intros ->; reflexivity. Qed.

Lemma name_suffix_pub (nm : string) :
  nm <> "" -> rfind_dot nm = None -> name_suffix (nm ++ ".pub") = ".pub".
Proof.
  intros Hne Hnd; unfold name_suffix, rfind_dot in *.
  rewrite list_ascii_of_string_app, rfind_dot_aux_app, Hnd.
  simpl; rewrite length_list_ascii_of_string, string_length_app; simpl.
  destruct nm as [|c nm']; [contradiction|].
  change (String.length (String c nm')) with (S (String.length nm')).
  set (n := String.length nm').
  replace ((0 <? S n)%nat) with true by (symmetry; apply Nat.ltb_lt; lia).
  replace ((S n <? S n + 4 - 1)%nat) with true by (symmetry; apply Nat.ltb_lt; lia).
  replace (S n + 4 - S n) with (String.length ".pub") by (simpl; lia).
  apply (substring_app_right (String c nm') ".pub").
Qed.

Lemma string_app_assoc (a b c : string) : ((a ++ b) ++ c)%string = (a ++ (b ++ c))%string.
Proof. induction a as [|x a IH]; simpl; [reflexivity | rewrite IH; reflexivity]. Qed.

Lemma string_app_nil_r (a : string) : (a ++ "")%string = a.
Proof. induction a as [|x a IH]; simpl; [reflexivity | rewrite IH; reflexivity]. Qed.

Lemma string_app_neq_empty (a b : string) : a <> "" -> (a ++ b)%string <> "".
Proof. destruct a; simpl; [contradiction | discriminate]. Qed.

Lemma keygen_binding_paths (q : path) :
  snd (path_parent_and_name q) <> "" ->
  rfind_dot (snd (path_parent_and_name q)) = None ->
  keygen_paths q = Some (q, q ++ ".pub")%string /\
  with_suffix (q ++ ".pub") "" = Some q.
Proof.
  intros Hne Hnd.
  pose proof (path_parent_and_name_recombine q) as Hr.
  pose proof (path_parent_and_name_app q ".pub") as Ha.
  destruct (path_parent_and_name q) as [par nm] eqn:E; simpl in *.
  assert (Hnm : String.eqb nm "" = false) by (apply String.eqb_neq; exact Hne).
  assert (Hq : String.eqb q "." = false).
  { apply String.eqb_neq; intros Eq; rewrite Eq in E; vm_compute in E.
    injection E as _ <-; vm_compute in Hnd; discriminate. }
  assert (Hqp : String.eqb (q ++ ".pub") "." = false).
  { apply String.eqb_neq; intros Eq; apply (f_equal String.length) in Eq.
    rewrite string_length_app in Eq; simpl in Eq; lia. }
  split.
  - unfold keygen_paths, with_suffix; rewrite E, Hnm, Hq, (name_suffix_nodot _ Hnd); simpl.
    rewrite <- string_app_assoc, Hr; reflexivity.
  - unfold with_suffix.
    rewrite Ha by (simpl; intuition discriminate).
    assert (Hnm' : String.eqb (nm ++ ".pub") "" = false)
      by (apply String.eqb_neq, string_app_neq_empty; exact Hne).
    rewrite Hnm', Hqp, (name_suffix_pub _ Hne Hnd); simpl.
    rewrite string_length_app; simpl.
    replace (String.length nm + 4 - 4) with (String.length nm) by lia.
    rewrite substring_app_left, string_app_nil_r, Hr; reflexivity.
Qed.

(** X2: When the last component of the base name q is non-empty and
    contains no '.', key generation writes the public key at q + '.pub',
    and key binding given q + '.pub' reads the private key at q, so the two
    scripts agree on the file names. *)
Theorem keygen_and_binding_paths_agree (q : path) :
  snd (path_parent_and_name q) <> "" ->
  rfind_dot (snd (path_parent_and_name q)) = None ->
  keygen_paths q = Some (q, q ++ ".pub")%string /\
  with_suffix (q ++ ".pub") "" = Some q.
Proof. apply keygen_binding_paths. Qed.

Lemma keygen_and_binding_paths_agree_witness :
  snd (path_parent_and_name "keys/layout-owner-key") <> "" /\
  rfind_dot (snd (path_parent_and_name "keys/layout-owner-key")) = None /\
  keygen_paths "keys/layout-owner-key" =
    Some ("keys/layout-owner-key", "keys/layout-owner-key" ++ ".pub")%string /\
  with_suffix ("keys/layout-owner-key" ++ ".pub") "" = Some "keys/layout-owner-key".
Proof.
  assert (H1 : snd (path_parent_and_name "keys/layout-owner-key") <> "")
    by (vm_compute; discriminate).
  assert (H2 : rfind_dot (snd (path_parent_and_name "keys/layout-owner-key")) = None)
    by (vm_compute; reflexivity).
  split; [exact H1|]; split; [exact H2|].
  apply (keygen_and_binding_paths_agree "keys/layout-owner-key" H1 H2).
Defined.

(** ** Extra: key binding *)

Lemma bind_layout_keys_field (kid : string) (pk layout layout' : json) :
  bind_layout kid pk layout = Some layout' ->
  field layout' "keys" = Some (JObj [(kid, pk)]).
Proof.
  destruct layout as [| | | | |kvs]; simpl; try discriminate.
  destruct (dget (dset kvs "keys" (JObj [(kid, pk)])) "steps") as [st|].
  - destruct (bind_steps kid st); [|discriminate].
    intros H; injection H as <-; simpl.
    rewrite dget_dset_other by discriminate; apply dget_dset_same.
  - intros H; injection H as <-; simpl; apply dget_dset_same.
Qed.

(** X4: A successful key-binding run changes only the layout file. The keys
    registry it writes is a single entry {id: {keyid: id, keytype, scheme,
    keyval}}: the public-key dict of the private key at the public key path
    minus its suffix, with keyid added. Here id is the sha256 of the
    canonical JSON of that dict without keyid. *)
Theorem update_layout_keys_writes_registry_entry (B : Backend) (fs fs' : FS B)
  (lp kp : path) :
  run_update_layout_keys B fs lp kp = Some fs' ->
  (forall q, q <> lp -> fs' q = fs q) /\
  exists priv f k kvs layout',
    with_suffix kp "" = Some priv /\ fs priv = Some f /\
    load_pem_private_key B f = Some k /\
    public_key_dict B (public_pem B k) = JObj kvs /\
    fs' lp = Some (json_dump B layout') /\
    field layout' "keys" =
      Some (JObj [(sha256_hex B (encode_canonical B (JObj kvs)),
                   JObj (("keyid", JStr (sha256_hex B (encode_canonical B (JObj kvs))))
                         :: kvs))]).
Proof.
  unfold run_update_layout_keys, update_layout_keys.
  destruct (with_suffix kp "") as [priv|] eqn:Ew; [|discriminate].
  destruct (load_key_for_binding B fs priv) as [[kid pk]|] eqn:El; [|discriminate].
  destruct (fs lp) as [text|]; [|discriminate].
  destruct (json_load B text) as [layout|]; [|discriminate].
  destruct (bind_layout kid pk layout) as [layout'|] eqn:Eb; [|discriminate].
  intros H; injection H as <-; split.
  - intros q Hq; unfold fs_write; apply String.eqb_neq in Hq; rewrite Hq; reflexivity.
  - unfold load_key_for_binding in El.
    destruct (fs priv) as [f|] eqn:Ef; [|discriminate].
    destruct (load_pem_private_key B f) as [k|] eqn:Ek; [|discriminate].
    unfold keyid_of_public, public_key_dict in El |- *.
    destruct (keytype_scheme_of_public B (public_pem B k)) as [kt sc] eqn:Ekt.
    injection El as <- <-.
    exists priv, f, k; eexists; exists layout'.
    split; [reflexivity|]; split; [exact Ef|]; split; [exact Ek|].
    split; [rewrite Ekt; reflexivity|]; split.
    + unfold fs_write; rewrite String.eqb_refl; reflexivity.
    + rewrite (bind_layout_keys_field _ _ _ _ Eb); reflexivity.
Qed.

Lemma update_layout_keys_writes_registry_entry_witness :
  exists fs', run_update_layout_keys toy_backend example_fs "layout.json" "k.pub" = Some fs' /\
  (forall q, q <> "layout.json" -> fs' q = example_fs q).
Proof.
  eexists; split; [reflexivity|].
  apply (update_layout_keys_writes_registry_entry toy_backend example_fs _ "layout.json" "k.pub").
  reflexivity.
Defined.

Lemma map_set_pubkeys_none (kid : string) (l : list json) :
  map_option (set_pubkeys kid) l = None <->
  Exists (fun s => match s with JObj _ => False | _ => True end) l.
Proof.
  induction l as [|x xs IH]; simpl.
  - split; [discriminate | intros H; inversion H].
  - split.
    + destruct x; simpl; try (intros _; constructor; exact I).
      destruct (map_option (set_pubkeys kid) xs); [discriminate|].
      intros _; apply Exists_cons_tl, IH; reflexivity.
    + intros H; inversion H as [? ? Hx|? ? Hxs]; subst.
      * destruct x; simpl; try reflexivity; contradiction.
      * destruct (set_pubkeys kid x); [|reflexivity].
        apply IH in Hxs; rewrite Hxs; reflexivity.
Qed.

(** X5: Key binding of a JSON object layout fails exactly when it has a
    steps field that is a list containing a non-object, a non-empty dict, a
    non-empty string, or any other non-list value such as null or a number.
    A missing steps field, a list of objects, an empty dict or an empty
    string is accepted. *)
Theorem bind_layout_fails_iff (kid : string) (pk : json) (kvs : list (string * json)) :
  bind_layout kid pk (JObj kvs) = None <->
  exists v, dget kvs "steps" = Some v /\
    match v with
    | JArr l => Exists (fun s => match s with JObj _ => False | _ => True end) l
    | JObj skv => skv <> []
    | JStr s => s <> ""
    | _ => True
    end.
Proof.
  simpl; rewrite dget_dset_other by discriminate.
  destruct (dget kvs "steps") as [v|].
  - split.
    + intros H; exists v; split; [reflexivity|].
      destruct (bind_steps kid v) eqn:Eb; [discriminate|].
      destruct v as [| | | s |l|skv]; simpl in Eb; try exact I.
      * destruct s; simpl in Eb; [discriminate | intros E; discriminate].
      * destruct (map_option (set_pubkeys kid) l) eqn:Em; [discriminate|].
        apply (map_set_pubkeys_none kid); exact Em.
      * destruct skv; simpl in Eb; [discriminate | intros E; discriminate].
    + intros [v' [Ev Hv]]; injection Ev as <-.
      destruct v as [| | | s |l|skv]; simpl; try reflexivity.
      * destruct s; [contradiction | reflexivity].
      * apply (map_set_pubkeys_none kid) in Hv; rewrite Hv; reflexivity.
      * destruct skv; [contradiction | reflexivity].
  - split; [discriminate | intros [v [Ev _]]; discriminate].
Qed.

Lemma map_fst_dset (kvs : list (string * json)) (k : string) (v : json) :
  map fst (dset kvs k v) = (map fst kvs ++ (if dhas kvs k then [] else [k]))%list.
Proof.
  unfold dhas; induction kvs as [|[k0 v0] rest IH]; simpl; [reflexivity|].
  destruct (String.eqb_spec k0 k) as [->|Hk]; simpl; [rewrite app_nil_r; reflexivity|].
  rewrite IH; reflexivity.
Qed.

Lemma dhas_dset_same (kvs : list (string * json)) (k : string) (v : json) :
  dhas (dset kvs k v) k = true.
Proof. unfold dhas; rewrite dget_dset_same; reflexivity. Qed.

(** X6: Key binding keeps the order of the layout's top-level fields: the
    bound object has the input's field names in the same order, followed by
    keys only when the input had no keys field. *)
Theorem bind_layout_keeps_field_order (kid : string) (pk : json)
  (kvs kvs' : list (string * json)) :
  bind_layout kid pk (JObj kvs) = Some (JObj kvs') ->
  map fst kvs' = (map fst kvs ++ (if dhas kvs "keys" then [] else ["keys"]))%list.
Proof.
  simpl; destruct (dget (dset kvs "keys" (JObj [(kid, pk)])) "steps") as [st|] eqn:Est.
  - destruct (bind_steps kid st); [|discriminate].
    intros H; injection H as <-.
    rewrite map_fst_dset.
    replace (dhas (dset kvs "keys" (JObj [(kid, pk)])) "steps") with true
      by (unfold dhas; rewrite Est; reflexivity).
    rewrite app_nil_r, map_fst_dset; reflexivity.
  - intros H; injection H as <-; apply map_fst_dset.
Qed.

Lemma bind_layout_keeps_field_order_witness :
  exists kvs', bind_layout "id1" (JObj []) example_layout = Some (JObj kvs') /\
    map fst kvs' = ["_type"; "expires"; "steps"; "inspect"; "keys"].
Proof.
  eexists; split; [reflexivity|].
  apply (bind_layout_keeps_field_order "id1" (JObj [])
           [("_type", JStr "layout"); ("expires", JStr "2030-01-01T00:00:00Z");
            ("steps", JArr [JObj [("name", JStr "build");
                                  ("expected_command", JArr [JStr "make"])]]);
            ("inspect", JArr []); ("keys", JObj [])]).
  reflexivity.
Defined.

(** ** Extra: signing *)

Lemma unsigned_metablock_payload (B : Backend) (kvs : list (string * json))
  (sigs : list json) (s : json) :
  unsigned_metablock B kvs = Some (sigs, s) ->
  exists steps insp,
    let lkvs := [("_type", JStr "layout"); ("steps", JArr steps); ("inspect", JArr insp);
                 ("keys", dget_default kvs "keys" (JObj []));
                 ("expires",
                   match dget kvs "expires" with
                   | None => JStr default_expires
                   | Some v => if py_truthy v then v else JStr (relative_expiration B)
                   end);
                 ("readme", JStr "")] in
    s = JObj (match dget kvs "_type" with Some t => dset lkvs "_type" t | None => lkvs end).
Proof.
  unfold unsigned_metablock; intros H.
  destruct (py_iter (dget_default kvs "steps" (JArr []))) as [sdata|]; [|discriminate].
  destruct (py_iter (dget_default kvs "inspect" (JArr []))) as [idata|]; [|discriminate].
  destruct (map_option (Step B) sdata) as [steps|]; [|discriminate].
  destruct (map_option (Inspection B) idata) as [insp|]; [|discriminate].
  unfold Layout in H; destruct (validate_layout B _); [|discriminate].
  simpl in H; exists steps, insp.
  destruct (dget kvs "_type") as [t|];
    (destruct (validate_metablock B _ _); [|discriminate]);
    injection H as <- <-; unfold dget_default; simpl;
    destruct (dget kvs "expires"); reflexivity.
Qed.

(** X7: Signing an unsigned layout produces a payload whose fields are
    exactly _type, steps, inspect, keys, expires, readme in that order.
    _type and keys are copied from the input (defaults layout and {}),
    readme is empty, and other top-level input fields are dropped. expires
    is the input's value when truthy, in-toto's one-month default when
    present but falsy, and 2030-12-31T23:59:59Z when absent. *)
Theorem sign_unsigned_payload_fields (B : Backend) (kvs : list (string * json))
  (k : @PrivKey B) (out : json) :
  is_metablock (JObj kvs) = false ->
  sign_doc B (JObj kvs) k = Some out ->
  field_names (signed_of out) = ["_type"; "steps"; "inspect"; "keys"; "expires"; "readme"] /\
  field (signed_of out) "_type" = Some (dget_default kvs "_type" (JStr "layout")) /\
  field (signed_of out) "keys" = Some (dget_default kvs "keys" (JObj [])) /\
  field (signed_of out) "readme" = Some (JStr "") /\
  field (signed_of out) "expires" =
    Some (match dget kvs "expires" with
          | None => JStr default_expires
          | Some v => if py_truthy v then v else JStr (relative_expiration B)
          end).
Proof.
  intros Hm H; destruct (sign_doc_some _ _ _ _ H) as (sigs & signed & Hb & ->).
  rewrite (proj2 (proj2 (metablock_json_observations _ signed))).
  unfold build_metablock in Hb; simpl in Hm; rewrite Hm in Hb.
  destruct (unsigned_metablock_payload _ _ _ _ Hb) as (steps & insp & ->).
  destruct (dget kvs "_type") as [t|] eqn:Et; repeat split;
    simpl; unfold dget_default; rewrite ?Et; reflexivity.
Qed.

Lemma sign_unsigned_payload_fields_witness :
  exists out, sign_doc toy_backend layout_with_step_note "alice" = Some out /\
    field_names (signed_of out) = ["_type"; "steps"; "inspect"; "keys"; "expires"; "readme"].
Proof.
  eexists; split; [reflexivity|].
  apply (sign_unsigned_payload_fields toy_backend
           [("_type", JStr "layout"); ("expires", JStr "2030-01-01T00:00:00Z");
            ("steps", JArr [JObj [("name", JStr "build"); ("note", JStr "owner: ci")]]);
            ("inspect", JArr []); ("keys", JObj [])] "alice");
    reflexivity.
Defined.


(** ** Extra: binding followed by signing *)

Lemma map_set_pubkeys_has (kid : string) (l l' : list json) :
  map_option (set_pubkeys kid) l = Some l' -> Forall (has_pubkeys kid) l'.
Proof.
  revert l'; induction l as [|x xs IH]; simpl; intros l' H.
  - injection H as <-; constructor.
  - destruct (set_pubkeys kid x) as [y|] eqn:Ex; [|discriminate].
    destruct (map_option (set_pubkeys kid) xs) as [ys|]; [|discriminate].
    injection H as <-; constructor; [|apply IH; reflexivity].
    destruct x; simpl in Ex; try discriminate.
    injection Ex as <-; eexists; split; [reflexivity | apply dget_dset_same].
Qed.

Lemma bind_steps_has (kid : string) (st st' : json) :
  bind_steps kid st = Some st' ->
  exists items, py_iter st' = Some items /\ Forall (has_pubkeys kid) items.
Proof.
  destruct st as [| | | |l|kvs]; simpl; intros H.
  - discriminate.
  - discriminate.
  - discriminate.
  - destruct (map (fun c => JStr (String c "")) (list_ascii_of_string s)) eqn:E;
      [|discriminate].
    injection H as <-; exists []; simpl; rewrite E; split; [reflexivity | constructor].
  - destruct (map_option (set_pubkeys kid) l) as [l'|] eqn:E; [|discriminate].
    injection H as <-; exists l'; split; [reflexivity | apply (map_set_pubkeys_has _ _ _ E)].
  - destruct (map (fun kv => JStr (fst kv)) kvs) eqn:E; [|discriminate].
    injection H as <-; exists []; simpl; rewrite E; split; [reflexivity | constructor].
Qed.

Lemma Step_has_pubkeys (B : Backend) (kid : string) (la lc : list json) :
  Forall2 (fun a c => Step B a = Some c) la lc ->
  Forall (has_pubkeys kid) la ->
  Forall (fun c => field c "pubkeys" = Some (JArr [JStr kid])) lc.
Proof.
  intros H2; induction H2 as [|a c la lc Hac _ IH]; intros Ha; [constructor|].
  inversion Ha as [|? ? Hpa Hrest]; subst.
  constructor; [|apply IH; exact Hrest].
  destruct Hpa as (kw & -> & Hp).
  pose proof (Step_keeps_model_fields B _ _ Hac) as Hk.
  destruct c as [| | | | |skv]; try contradiction.
  destruct (Hk "pubkeys") as [Hin _].
  simpl; rewrite Hin; [exact Hp | simpl; tauto | rewrite Hp; discriminate].
Qed.

Lemma dhas_dset_other (kvs : list (string * json)) (k k' : string) (v : json) :
  k' <> k -> dhas (dset kvs k v) k' = dhas kvs k'.
Proof. intros Hne; unfold dhas; rewrite dget_dset_other by exact Hne; reflexivity. Qed.

Lemma bind_layout_shape (kid : string) (pk : json) (kvs : list (string * json))
  (d' : json) :
  bind_layout kid pk (JObj kvs) = Some d' ->
  exists kvs', d' = JObj kvs' /\
    dhas kvs' "signed" = dhas kvs "signed" /\
    dhas kvs' "signatures" = dhas kvs "signatures" /\
    dget kvs' "keys" = Some (JObj [(kid, pk)]) /\
    match dget kvs' "steps" with
    | None => True
    | Some st' => exists items, py_iter st' = Some items /\ Forall (has_pubkeys kid) items
    end.
Proof.
  simpl; destruct (dget (dset kvs "keys" (JObj [(kid, pk)])) "steps") as [st|] eqn:Est.
  - destruct (bind_steps kid st) as [st'|] eqn:Eb; [|discriminate].
    intros H; injection H as <-; eexists; split; [reflexivity|].
    rewrite !dhas_dset_other by discriminate.
    split; [reflexivity|]; split; [reflexivity|].
    rewrite dget_dset_other by discriminate; rewrite !dget_dset_same.
    split; [reflexivity|].
    apply (bind_steps_has _ _ _ Eb).
  - intros H; injection H as <-; eexists; split; [reflexivity|].
    rewrite !dhas_dset_other by discriminate.
    split; [reflexivity|]; split; [reflexivity|].
    split; [apply dget_dset_same|]. rewrite Est; exact I.
Qed.

(** X10: Take an unsigned layout that is bound to a private key's public
    key and then signed with that same private key, with json.load reading
    back what json.dump wrote. The result has one signature, and its keyid
    is the bound key id. The signed layout's keys registry has an entry
    under that id whose keyid field is the id, and every signed step has
    pubkeys equal to [that id]. *)
Theorem bind_then_sign_keyids_match (B : Backend) (fs fs' : FS B)
  (lp kp priv : path) (text f : @File B) (d : json) (k : @PrivKey B) :
  (forall j, json_load B (json_dump B j) = Some j) ->
  fs lp = Some text -> json_load B text = Some d -> is_metablock d = false ->
  with_suffix kp "" = Some priv -> fs priv = Some f ->
  load_pem_private_key B f = Some k ->
  run_update_layout_keys B fs lp kp = Some fs' ->
  exists text' d', fs' lp = Some text' /\ json_load B text' = Some d' /\
  forall out, sign_doc B d' k = Some out ->
    signatures_of out = [signature_dict B k (signed_of out)] /\
    field (signature_dict B k (signed_of out)) "keyid" =
      Some (JStr (keyid_of_public B (public_pem B k))) /\
    (exists pk, registry_entry (signed_of out) (keyid_of_public B (public_pem B k)) = Some pk /\
                field pk "keyid" = Some (JStr (keyid_of_public B (public_pem B k)))) /\
    Forall (fun s => field s "pubkeys" = Some (JArr [JStr (keyid_of_public B (public_pem B k))]))
      (output_items out "steps").
Proof.
  intros Hrt Hlp Hd Hm Hw Hf Hk Hrun.
  unfold run_update_layout_keys, update_layout_keys in Hrun.
  rewrite Hw in Hrun.
  destruct (load_key_for_binding B fs priv) as [[kid pk]|] eqn:El; [|discriminate].
  assert (Hpk : kid = keyid_of_public B (public_pem B k) /\ field pk "keyid" = Some (JStr kid)).
  { unfold load_key_for_binding in El; rewrite Hf, Hk in El.
    unfold public_key_dict in El.
    destruct (keytype_scheme_of_public B (public_pem B k)) as [kt sc].
    injection El as <- <-; split; reflexivity. }
  destruct Hpk as [Hkid Hpk]; subst kid.
  rewrite Hlp, Hd in Hrun.
  destruct (bind_layout _ pk d) as [d'|] eqn:Eb; [|discriminate].
  injection Hrun as <-.
  exists (json_dump B d'), d'; split; [unfold fs_write; rewrite String.eqb_refl; reflexivity|].
  split; [apply Hrt|].
  intros out Hs.
  destruct d as [| | | | |kvs]; try discriminate.
  destruct (bind_layout_shape _ _ _ _ Eb) as (kvs' & -> & Hsg & Hsgs & Hkeys & Hsteps).
  assert (Hm' : is_metablock (JObj kvs') = false) by (simpl in *; rewrite Hsg, Hsgs; exact Hm).
  destruct (sign_doc_signatures _ _ _ _ Hs) as [_ Hsigs].
  destruct (sign_doc_some _ _ _ _ Hs) as (sigs & signed & Hb & ->).
  destruct (build_metablock_items _ _ _ _ Hb) as (steps & insp & Ms & _ & Fs & _).
  assert (Eso : forall l, signed_of (JObj [("signatures", JArr l); ("signed", signed)]) = signed)
    by reflexivity.
  rewrite !Eso in *.
  split; [exact Hsigs|]; split; [reflexivity|]; split.
  - exists pk; split; [|exact Hpk].
    unfold build_metablock in Hb; simpl in Hm'; rewrite Hm' in Hb.
    destruct (unsigned_metablock_payload _ _ _ _ Hb) as (st & ins & ->).
    unfold registry_entry, dget_default; rewrite Hkeys.
    destruct (dget kvs' "_type"); simpl; rewrite String.eqb_refl; reflexivity.
  - unfold output_items; rewrite Eso, Fs.
    apply map_option_Forall2 in Ms.
    apply (Step_has_pubkeys B _ _ _ Ms).
    unfold input_items, payload_of; rewrite Hm'; unfold dget_default.
    destruct (dget kvs' "steps") as [st'|].
    + destruct Hsteps as (items & Hi & Hf'); rewrite Hi; exact Hf'.
    + constructor.
Qed.

Lemma bind_then_sign_keyids_match_witness :
  exists fs', run_update_layout_keys toy_backend example_fs "layout.json" "k.pub" = Some fs' /\
  exists text' d', fs' "layout.json" = Some text' /\ json_load toy_backend text' = Some d' /\
  forall out, sign_doc toy_backend d' "alice" = Some out ->
    signatures_of out = [signature_dict toy_backend "alice" (signed_of out)] /\
    field (signature_dict toy_backend "alice" (signed_of out)) "keyid" =
      Some (JStr (keyid_of_public toy_backend (public_pem toy_backend "alice"))) /\
    (exists pk, registry_entry (signed_of out)
                  (keyid_of_public toy_backend (public_pem toy_backend "alice")) = Some pk /\
                field pk "keyid" =
                  Some (JStr (keyid_of_public toy_backend (public_pem toy_backend "alice")))) /\
    Forall (fun s => field s "pubkeys" =
                       Some (JArr [JStr (keyid_of_public toy_backend
                                           (public_pem toy_backend "alice"))]))
      (output_items out "steps").
Proof.
  eexists; split; [reflexivity|].
  apply (bind_then_sign_keyids_match toy_backend example_fs _ "layout.json" "k.pub" "k"
           example_layout (JStr "alice") example_layout "alice");
    try reflexivity.
Defined.



(** X1: When the private and public key paths differ, key generation either
    succeeds with the private key PEM at the private path (mode 0600) and
    the public key PEM at the public path (mode 0644), or fails with both
    paths as they were before, a partially written file being removed; no
    other path is changed. *)
Theorem generate_key_pair_all_or_nothing (B : Backend) (fs : KFS B)
  (priv pub : path) (gen : option (@PrivKey B)) (io : IOPlan B) :
  priv <> pub ->
  let '(fs', ok) := generate_key_pair B fs priv pub gen io in
  (forall q, q <> priv -> q <> pub -> fs' q = fs q) /\
  ((ok = true /\ exists k, gen = Some k /\
      fs' priv = Some (private_bytes B k, mode_private) /\
      fs' pub = Some (public_bytes B k, mode_public)) \/
   (ok = false /\ fs' priv = fs priv /\ fs' pub = fs pub)).
Proof. apply generate_key_pair_outcome. Qed.

Lemma generate_key_pair_all_or_nothing_witness :
  "k"%string <> "k.pub"%string /\
  let '(fs', ok) :=
    generate_key_pair toy_backend (empty_kfs toy_backend) "k" "k.pub" (Some "alice")
      {| w_private := WriteOk toy_backend; chmod_private_ok := true;
         w_public := WriteFailPartial toy_backend (JStr "PUB:al");
         chmod_public_ok := true; new_file_mode := 420 |} in
  (forall q, q <> "k"%string -> q <> "k.pub"%string -> fs' q = empty_kfs toy_backend q) /\
  ((ok = true /\ exists k, Some "alice"%string = Some k /\
      fs' "k"%string = Some (private_bytes toy_backend k, mode_private) /\
      fs' "k.pub"%string = Some (public_bytes toy_backend k, mode_public)) \/
   (ok = false /\ fs' "k"%string = empty_kfs toy_backend "k" /\
    fs' "k.pub"%string = empty_kfs toy_backend "k.pub")).
Proof.
  split; [discriminate|].
  apply (generate_key_pair_all_or_nothing toy_backend (empty_kfs toy_backend) "k" "k.pub").
  discriminate.
Defined.

(** ** Extra: app.py *)

(** X11: For every request, the q query argument (first value, empty when
    absent) appears unescaped inside the /search page as <p>You searched
    for: q</p> and inside the home page as <div>Search query: q</div>. *)
Theorem app_reflects_query_unescaped (args : list (string * string)) :
  is_infix ("<p>You searched for: " ++ args_get args "q" "" ++ "</p>")
    (body (serve_search args)) /\
  is_infix ("<div>Search query: " ++ args_get args "q" "" ++ "</div>")
    (body (serve_hello args)).
Proof.
  set (q := args_get args "q" "").
  split.
  - exists (substring 0 (String.length search_page_before - 21) search_page_before),
      (substring 4 (String.length search_page_after - 4) search_page_after).
    assert (Hb : search_page_before =
      (substring 0 (String.length search_page_before - 21) search_page_before ++
       "<p>You searched for: ")%string) by reflexivity.
    assert (Ha : search_page_after =
      ("</p>" ++ substring 4 (String.length search_page_after - 4) search_page_after)%string)
      by reflexivity.
    unfold serve_search, add_headers, make_response, search; simpl body; fold q.
    rewrite Hb at 1; rewrite Ha at 1.
    rewrite !string_app_assoc; reflexivity.
  - exists (substring 0 (String.length hello_page_before - 19) hello_page_before),
      (substring 6 (String.length hello_page_after - 6) hello_page_after).
    assert (Hb : hello_page_before =
      (substring 0 (String.length hello_page_before - 19) hello_page_before ++
       "<div>Search query: ")%string) by reflexivity.
    assert (Ha : hello_page_after =
      ("</div>" ++ substring 6 (String.length hello_page_after - 6) hello_page_after)%string)
      by reflexivity.
    unfold serve_hello, add_headers, hello, set_header, make_response; simpl body; fold q.
    rewrite Hb at 1; rewrite Ha at 1.
    rewrite !string_app_assoc; reflexivity.
Qed.

(** X12: For every request, the home page response has exactly one
    Content-Type header, text/html; charset=utf-8, one
    Access-Control-Allow-Origin header with value *, and one
    Access-Control-Allow-Credentials header with value true. *)
Theorem app_home_headers (args : list (string * string)) :
  header_values (serve_hello args) "Content-Type" = ["text/html; charset=utf-8"] /\
  header_values (serve_hello args) "Access-Control-Allow-Origin" = ["*"] /\
  header_values (serve_hello args) "Access-Control-Allow-Credentials" = ["true"].
Proof.
  unfold serve_hello, add_headers, hello, set_header, make_response, header_values.
  cbn [headers headers_set].
  repeat split; reflexivity.
Qed.

(** ** Extra: key generation followed by key binding *)

Lemma string_app_length_neq (q s : string) : s <> "" -> q <> (q ++ s)%string.
Proof.
  intros Hs E; apply (f_equal String.length) in E.
  rewrite string_length_app in E; destruct s; [contradiction | simpl in E; lia].
Qed.

(** X3: If key generation with base q (last component non-empty, no '.')
    succeeds, and loading the written private key PEM gives a key with the
    same public key, then key binding with q + '.pub' finds the private key
    at q and binds the key id of the generated key. *)
Theorem keygen_then_bind_keyid (B : Backend) (fs fs' : KFS B) (q : path)
  (k : @PrivKey B) (io : IOPlan B) :
  snd (path_parent_and_name q) <> "" ->
  rfind_dot (snd (path_parent_and_name q)) = None ->
  (exists k', load_pem_private_key B (private_bytes B k) = Some k' /\
              public_pem B k' = public_pem B k) ->
  keygen_main B fs q (Some k) io = (fs', true) ->
  with_suffix (q ++ ".pub") "" = Some q /\
  exists pk, load_key_for_binding B (fs_of_kfs B fs') q =
               Some (keyid_of_public B (public_pem B k), pk).
Proof.
  intros Hne Hnd (k' & Hl & Hp) Hg.
  destruct (keygen_binding_paths q Hne Hnd) as [Hk Hw].
  split; [exact Hw|].
  unfold keygen_main in Hg; rewrite Hk in Hg.
  pose proof (generate_key_pair_outcome B fs q (q ++ ".pub") (Some k) io
                (string_app_length_neq q ".pub" ltac:(discriminate))) as Ho.
  rewrite Hg in Ho.
  destruct Ho as [_ [(_ & k0 & Ek & Hpriv & _) | (Hf & _)]]; [|discriminate].
  injection Ek as <-.
  unfold load_key_for_binding, fs_of_kfs; rewrite Hpriv; simpl; rewrite Hl, Hp.
  eexists; reflexivity.
Qed.

Lemma keygen_then_bind_keyid_witness :
  exists fs',
    keygen_main toy_backend (empty_kfs toy_backend) "owner" (Some "alice"%string)
      (all_ok_plan toy_backend 420) = (fs', true) /\
    with_suffix ("owner" ++ ".pub") "" = Some "owner"%string /\
    exists pk, load_key_for_binding toy_backend (fs_of_kfs toy_backend fs') "owner" =
      Some (keyid_of_public toy_backend (public_pem toy_backend "alice"), pk).
Proof.
  eexists; split; [reflexivity|].
  apply (keygen_then_bind_keyid toy_backend (empty_kfs toy_backend) _ "owner" "alice"
           (all_ok_plan toy_backend 420));
    [vm_compute; discriminate | vm_compute; reflexivity
    | exists "alice"%string; split; reflexivity | reflexivity].
Defined.
